(** * Bank-review analytics pipeline: a shallow embedding of the scripts

    The repository is a chain of Python scripts (scrape, clean, sentiment,
    topic modelling, database load, orchestration).  Each script is embedded
    below in a module of its own, named after the script.  Calls into
    third-party libraries (NLTK, gensim, scikit-learn, VADER, TextBlob, Afinn,
    google-play-scraper, psycopg2, pandas date parsing) are Section variables:
    the development proves what the scripts do for every behaviour of those
    libraries, and instantiates them only in examples.

    Text is [string]: a character is a code point below 256, which covers
    ASCII and Latin-1; the regular expressions of the scripts treat every
    other code point like the Latin-1 characters that are neither letters
    a-z nor whitespace. *)

From Stdlib Require Import String Ascii List ZArith QArith Lia Bool Arith.
From stdpp Require Import gmap strings.
Import ListNotations.

Local Open Scope string_scope.
Local Open Scope list_scope.
Local Open Scope nat_scope.

(** ** Python built-ins and the regular expressions of the scripts *)

Module Py.

(** [str.isspace] and the class [\s] of [re] on [str] patterns, below 256:
    TAB..CR, FS..US, space, NEL and the no-break space. *)
Definition isspace (c : ascii) : bool :=
  let n := nat_of_ascii c in
  ((9 <=? n) && (n <=? 13)) || ((28 <=? n) && (n <=? 32))
  || (n =? 133) || (n =? 160).

(** The class [[a-z]]. *)
Definition is_az (c : ascii) : bool :=
  let n := nat_of_ascii c in (97 <=? n) && (n <=? 122).

(** The class [[\x20-\x7E\n]]. *)
Definition is_printable (c : ascii) : bool :=
  let n := nat_of_ascii c in ((32 <=? n) && (n <=? 126)) || (n =? 10).

(** [str.lower] on one character: A-Z and the Latin-1 capitals (all of
    U+00C0..U+00DE but the multiplication sign) move up by 32. *)
Definition lower_char (c : ascii) : ascii :=
  let n := nat_of_ascii c in
  if ((65 <=? n) && (n <=? 90))
     || ((192 <=? n) && (n <=? 222) && negb (n =? 215))
  then ascii_of_nat (n + 32) else c.

Fixpoint map_chars (f : ascii -> ascii) (s : string) : string :=
  match s with
  | EmptyString => EmptyString
  | String c r => String (f c) (map_chars f r)
  end.

Fixpoint filter_chars (f : ascii -> bool) (s : string) : string :=
  match s with
  | EmptyString => EmptyString
  | String c r => if f c then String c (filter_chars f r) else filter_chars f r
  end.

Fixpoint all_chars (f : ascii -> bool) (s : string) : bool :=
  match s with
  | EmptyString => true
  | String c r => f c && all_chars f r
  end.

Definition lower (s : string) : string := map_chars lower_char s.

(** [len(s)] for a [str]. *)
Definition len (s : string) : nat := String.length s.

(** Does [s] start with the literal [p]? *)
Fixpoint starts_with (p s : string) : bool :=
  match p, s with
  | EmptyString, _ => true
  | String a p', String b s' => Ascii.eqb a b && starts_with p' s'
  | String _ _, EmptyString => false
  end.

(** Does [s] start with the literal [p] followed by one [\S]? *)
Fixpoint starts_with_then_nonspace (p s : string) : bool :=
  match p, s with
  | EmptyString, String c _ => negb (isspace c)
  | EmptyString, EmptyString => false
  | String a p', String b s' => Ascii.eqb a b && starts_with_then_nonspace p' s'
  | String _ _, EmptyString => false
  end.

(** [re.sub(pattern, '', text)] for a pattern whose every match runs to the
    end of the run of non-whitespace characters it starts in ([... \S+] with
    a greedy last factor): [starts s] says that a match starts at the head of
    [s]; a match, once started, swallows characters up to the next whitespace
    or the end, and the search resumes there. *)
Fixpoint delete_runs (starts : string -> bool) (skipping : bool) (s : string)
  : string :=
  match s with
  | EmptyString => EmptyString
  | String c r =>
      if skipping then
        if isspace c then String c (delete_runs starts false r)
        else delete_runs starts true r
      else if starts s then delete_runs starts true r
      else String c (delete_runs starts false r)
  end.

(** A match of [http\S+|www\S+] starts here. *)
Definition url_starts (s : string) : bool :=
  starts_with_then_nonspace "http" s || starts_with_then_nonspace "www" s.

(** Inside a run of non-whitespace: is there an [@] followed by one [\S]? *)
Fixpoint at_then_nonspace (s : string) : bool :=
  match s with
  | EmptyString => false
  | String c r =>
      if isspace c then false
      else (Ascii.eqb c "@" && starts_with_then_nonspace "" r)
           || at_then_nonspace r
  end.

(** A match of [\S+@\S+] starts here: one [\S], then (after any further
    [\S]) an [@] and one more [\S]. *)
Definition email_starts (s : string) : bool :=
  match s with
  | EmptyString => false
  | String c r => negb (isspace c) && at_then_nonspace r
  end.

(** [re.sub(r'http\S+|www\S+', '', text)] *)
Definition sub_urls (s : string) : string := delete_runs url_starts false s.

(** [re.sub(r'\S+@\S+', '', text)] *)
Definition sub_emails (s : string) : string := delete_runs email_starts false s.

(** [re.sub(r'[^a-z\s]', ' ', text)] *)
Definition sub_nonletters (s : string) : string :=
  map_chars (fun c => if is_az c || isspace c then c else " "%char) s.

(** [re.sub(r'[^\x20-\x7E\n]', '', text)] *)
Definition sub_nonprintable (s : string) : string := filter_chars is_printable s.

(** [str.strip()]: leading and trailing whitespace removed. *)
Fixpoint lstrip (s : string) : string :=
  match s with
  | EmptyString => EmptyString
  | String c r => if isspace c then lstrip r else s
  end.

Fixpoint rstrip (s : string) : string :=
  match s with
  | EmptyString => EmptyString
  | String c r =>
      match rstrip r with
      | EmptyString => if isspace c then EmptyString else String c EmptyString
      | r' => String c r'
      end
  end.

Definition strip (s : string) : string := rstrip (lstrip s).

(** [re.sub(r'\s+', ' ', text)]: every maximal run of whitespace becomes one
    space; [in_run] says that the previous character was whitespace. *)
Fixpoint squeeze_spaces (in_run : bool) (s : string) : string :=
  match s with
  | EmptyString => EmptyString
  | String c r =>
      if isspace c then
        if in_run then squeeze_spaces true r
        else String " "%char (squeeze_spaces true r)
      else String c (squeeze_spaces false r)
  end.

(** [' '.join(tokens)] *)
Fixpoint join_spaces (l : list string) : string :=
  match l with
  | [] => EmptyString
  | [w] => w
  | w :: r => w ++ " " ++ join_spaces r
  end.

(** [max(l, key=key)] on a non-empty list whose head is [best]: the running
    maximum is replaced only by an item whose key is strictly greater, so of
    several maximal items the first wins. *)
Fixpoint max_by {A} (key : A -> Q) (best : A) (l : list A) : A :=
  match l with
  | [] => best
  | x :: r => if Qlt_le_dec (key best) (key x) then max_by key x r
              else max_by key best r
  end.

End Py.

(** ** A small model of pandas data frames

    A frame has an ordered list of column names and a list of rows; a row is
    its index label and a finite map from column names to cells.  A cell
    that a row does not hold reads as [Null] (pandas' NaN / None). *)

Module Pandas.

Inductive cell :=
| Null
| Str (s : string)
| Int (z : Z)
| Num (q : Q)
| Toks (l : list string).

Record frame := { columns : list string; rows : list (nat * gmap string cell) }.

(** [len(df)] *)
Definition nrows (df : frame) : nat := length (rows df).

(** [df.index] *)
Definition index (df : frame) : list nat := List.map fst (rows df).

Definition cell_at (name : string) (r : nat * gmap string cell) : cell :=
  default Null (snd r !! name).

Definition has_col (name : string) (df : frame) : bool :=
  bool_decide (name ∈ columns df).

(** [df[name]]: [None] stands for the KeyError of a missing column. *)
Definition get_col (name : string) (df : frame) : option (list cell) :=
  if has_col name df then Some (List.map (cell_at name) (rows df)) else None.

Fixpoint put_cells (name : string) (vals : list cell)
  (rs : list (nat * gmap string cell)) : list (nat * gmap string cell) :=
  match rs, vals with
  | r :: rs', v :: vals' => (fst r, <[name := v]> (snd r)) :: put_cells name vals' rs'
  | _, _ => rs
  end.

(** [df[name] = vals] for a list or positional series [vals]: an existing
    column keeps its place, a new one goes last; [None] stands for the
    ValueError of a length mismatch. *)
Definition set_col (name : string) (vals : list cell) (df : frame) : option frame :=
  if length vals =? nrows df then
    Some {| columns := if has_col name df then columns df else columns df ++ [name];
            rows := put_cells name vals (rows df) |}
  else None.

Fixpoint mask_list {A} (mask : list bool) (l : list A) : list A :=
  match mask, l with
  | b :: mask', x :: l' => if b then x :: mask_list mask' l' else mask_list mask' l'
  | _, _ => []
  end.

(** [df[mask]] for a boolean series [mask] aligned with the rows. *)
Definition filter_rows (mask : list bool) (df : frame) : frame :=
  {| columns := columns df; rows := mask_list mask (rows df) |}.

(** [df.drop(name, axis=1)] on a frame that has the column. *)
Definition drop_col (name : string) (df : frame) : frame :=
  {| columns := List.filter (fun c => negb (String.eqb c name)) (columns df);
     rows := List.map (fun r => (fst r, delete name (snd r))) (rows df) |}.

Definition project (names : list string) (r : nat * gmap string cell)
  : nat * gmap string cell :=
  (fst r, list_to_map (List.map (fun c => (c, cell_at c r)) names)).

(** [df[[c1, ..., cn]]]: [None] stands for the KeyError of a missing column. *)
Definition select_cols (names : list string) (df : frame) : option frame :=
  if forallb (fun c => has_col c df) names then
    Some {| columns := names; rows := List.map (project names) (rows df) |}
  else None.

(** [df.to_csv(path, index=False)]: the header and, per row, the cells of
    the columns in order. *)
Record csv := { header : list string; lines : list (list cell) }.

Definition to_csv (df : frame) : csv :=
  {| header := columns df;
     lines := List.map (fun r => List.map (fun c => cell_at c r) (columns df)) (rows df) |}.

(** [pd.read_csv]: rows are labelled 0, 1, ... *)
Fixpoint number_rows (n : nat) (names : list string) (ls : list (list cell))
  : list (nat * gmap string cell) :=
  match ls with
  | [] => []
  | l :: ls' => (n, list_to_map (zip names l)) :: number_rows (S n) names ls'
  end.

Definition read_csv (f : csv) : frame :=
  {| columns := header f; rows := number_rows 0 (header f) (lines f) |}.

(** [pd.isnull] on a scalar cell. *)
Definition isnull (c : cell) : bool :=
  match c with Null => true | _ => false end.

(** [len(x)] for a cell: defined on strings and lists, a TypeError ([None])
    on numbers and NaN. *)
Definition cell_len (c : cell) : option nat :=
  match c with
  | Str s => Some (Py.len s)
  | Toks l => Some (length l)
  | _ => None
  end.

(** [df'] has the rows of [df], in order, and differs from it at most in
    the columns [names].  (Used to state what a step leaves alone.) *)
Definition frame_adds (names : list string) (df df' : frame) : Prop :=
  index df' = index df
  /\ forall name, name ∉ names -> get_col name df' = get_col name df.

(** Equality of cells as pandas and Python dictionaries see it: numbers by
    value, and NaN equal to NaN (both [drop_duplicates] and a dictionary
    lookup of the NaN object itself treat it so). *)
Definition cell_num (c : cell) : option Q :=
  match c with
  | Int z => Some (inject_Z z)
  | Num q => Some q
  | _ => None
  end.

Fixpoint tokens_eqb (a b : list string) : bool :=
  match a, b with
  | [], [] => true
  | x :: a', y :: b' => String.eqb x y && tokens_eqb a' b'
  | _, _ => false
  end.

Definition cell_eqb (a b : cell) : bool :=
  match a, b with
  | Null, Null => true
  | Str s, Str t => String.eqb s t
  | Toks l, Toks m => tokens_eqb l m
  | _, _ =>
      match cell_num a, cell_num b with
      | Some p, Some q => Qeq_bool p q
      | _, _ => false
      end
  end.

Fixpoint key_eqb (a b : list cell) : bool :=
  match a, b with
  | [], [] => true
  | x :: a', y :: b' => cell_eqb x y && key_eqb a' b'
  | _, _ => false
  end.

Definition row_key (subset : list string) (r : nat * gmap string cell) : list cell :=
  List.map (fun c => cell_at c r) subset.

(** [df.duplicated(subset=subset)] with the default [keep='first']: a row is
    marked when an earlier row has the same cells in the columns of
    [subset]. *)
Fixpoint duplicated_from (subset : list string) (seen : list (list cell))
  (rs : list (nat * gmap string cell)) : list bool :=
  match rs with
  | [] => []
  | r :: rs' =>
      let k := row_key subset r in
      if existsb (key_eqb k) seen then true :: duplicated_from subset seen rs'
      else false :: duplicated_from subset (k :: seen) rs'
  end.

Definition duplicated (subset : list string) (df : frame) : option (list bool) :=
  if forallb (fun c => has_col c df) subset
  then Some (duplicated_from subset [] (rows df)) else None.

(** [df.drop_duplicates(subset=subset, keep='first')] *)
Definition drop_duplicates (subset : list string) (df : frame) : option frame :=
  dup ← duplicated subset df;
  Some (filter_rows (List.map negb dup) df).

(** [df.dropna(subset=[name])] *)
Definition dropna (name : string) (df : frame) : option frame :=
  col ← get_col name df;
  Some (filter_rows (List.map (fun c => negb (isnull c)) col) df).

(** [series.unique()]: the values in order of first appearance. *)
Fixpoint unique_from (seen : list cell) (l : list cell) : list cell :=
  match l with
  | [] => []
  | c :: l' =>
      if existsb (cell_eqb c) seen then unique_from seen l'
      else c :: unique_from (c :: seen) l'
  end.

Definition unique (l : list cell) : list cell := unique_from [] l.

(** [df.rename(columns={old: new})] on a frame without a column [new]; a
    frame without the column [old] is left as it is. *)
Definition rename_col (old new : string) (df : frame) : frame :=
  if has_col old df then
    {| columns := List.map (fun c => if String.eqb c old then new else c) (columns df);
       rows := List.map (fun r => (fst r, <[new := cell_at old r]> (delete old (snd r))))
                 (rows df) |}
  else df.

(** [series.median()] of the numbers of a column, NaN ([None]) when there
    are none. *)
Fixpoint insert_sorted (q : Q) (l : list Q) : list Q :=
  match l with
  | [] => [q]
  | x :: l' => if Qle_bool q x then q :: l else x :: insert_sorted q l'
  end.

Definition sort_numbers (l : list Q) : list Q := fold_right insert_sorted [] l.

Definition median (l : list Q) : option Q :=
  let sorted := sort_numbers l in
  let n := length sorted in
  match n with
  | O => None
  | _ =>
      if Nat.even n
      then Some ((nth (n / 2 - 1) sorted 0%Q + nth (n / 2) sorted 0%Q) / 2)%Q
      else Some (nth (n / 2) sorted 0%Q)
  end.

End Pandas.

(** ** scripts/topic_modeling.py *)

Module TopicModeling.
Import Pandas.

Section Script.

(** NLTK: [stopwords.words('english')], [word_tokenize] and
    [WordNetLemmatizer().lemmatize]. *)
Variable nltk_english : gset string.
Variable word_tokenize : string -> list string.
Variable lemmatize : string -> string.

(** Python's [str()] on a cell that is not a string. *)
Variable py_str : cell -> string.

(** gensim: the phrase models trained on the token lists, as the function
    [x -> trigram_mod[bigram_mod[x]]]. *)
Variable apply_phrases : list (list string) -> list string -> list string.

(** scikit-learn: the TF-IDF keyword tables (overall and per bank) drawn from
    the bank column and the processed texts, and the NMF topics of the
    processed texts; [None] when a fit raises. *)
Variables keywords nmf_topics : Type.
Variable tfidf_keywords : list cell -> list string -> option keywords.
Variable nmf_fit : list string -> nat -> nat -> option nmf_topics.

(** gensim: the bag of words of a document under the dictionary built from
    all documents (extremes filtered), LDA training ([None] when it raises),
    and the topic distribution of a document as (topic id, probability)
    pairs. *)
Variables bow lda_model topic_words : Type.
Variable doc2bow : list (list string) -> list string -> bow.
Variable lda_train : list bow -> nat -> option lda_model.
Variable show_topic : lda_model -> nat -> nat -> topic_words.
Variable get_document_topics : lda_model -> bow -> list (Z * Q).

Definition custom_stopwords : gset string :=
  list_to_set
    ["app"; "bank"; "banking"; "mobile"; "application"; "apps";
     "use"; "using"; "used"; "one"; "get"; "make"; "also"; "would";
     "could"; "even"; "really"; "much"; "well"; "good"; "bad"].

(** [stop_words = set(stopwords.words('english'))] after
    [stop_words.update(custom_stopwords)]. *)
Definition stop_words : gset string := nltk_english ∪ custom_stopwords.

Definition str_of (c : cell) : string :=
  match c with Str s => s | _ => py_str c end.

(** The text handed to [word_tokenize]: lowercased, URLs and e-mail
    addresses deleted, everything but a-z and whitespace turned into a
    space. *)
Definition normalize (text : string) : string :=
  Py.sub_nonletters (Py.sub_emails (Py.sub_urls (Py.lower text))).

(** The comprehension
    [[word for word in tokens if word not in stop_words and len(word) >= 3]]. *)
Definition keep_word (word : string) : bool :=
  negb (bool_decide (word ∈ stop_words)) && (3 <=? Py.len word).

(** The inner function [clean_text(text)] of [preprocess_text]. *)
Definition clean_text (text : cell) : list string :=
  if isnull text then []
  else
    let text := normalize (str_of text) in
    let tokens := word_tokenize text in
    let tokens := List.filter keep_word tokens in
    List.map lemmatize tokens.

(** What is claimed of a token of the result: letters a-z only, three or
    more of them, and no stop word.  (Used in examples.) *)
Definition plain_token (word : string) : bool :=
  Py.all_chars Py.is_az word && (3 <=? Py.len word)
  && negb (bool_decide (word ∈ stop_words)).

(** Does a review have a token left?  (Used to state which rows
    [preprocess_text] keeps.) *)
Definition has_token (text : cell) : bool :=
  match clean_text text with [] => false | _ => true end.

(** [preprocess_text(df)] *)
Definition preprocess_text (df : frame) : option frame :=
  review ← get_col "review" df;
  df ← set_col "tokens" (List.map (fun c => Toks (clean_text c)) review) df;
  tokens ← get_col "tokens" df;
  lens ← mapM cell_len tokens;
  Some (filter_rows (List.map (fun n => 0 <? n) lens) df).

Definition cell_tokens (c : cell) : option (list string) :=
  match c with Toks l => Some l | _ => None end.

(** [create_bigrams_trigrams(df)]; the phrase counts it reports are left
    out, the frame it returns is kept. *)
Definition create_bigrams_trigrams (df : frame) : option frame :=
  tokens ← get_col "tokens" df;
  sentences ← mapM cell_tokens tokens;
  set_col "tokens_with_phrases"
    (List.map (fun x => Toks (apply_phrases sentences x)) sentences) df.

(** [extract_tfidf_keywords(df)]: it writes the column [processed_text] into
    the caller's frame, so the frame is returned beside the keywords. *)
Definition extract_tfidf_keywords (df : frame) : option (frame * keywords) :=
  phrases ← get_col "tokens_with_phrases" df;
  docs ← mapM cell_tokens phrases;
  df ← set_col "processed_text" (List.map (fun x => Str (Py.join_spaces x)) docs) df;
  texts ← get_col "processed_text" df;
  banks ← get_col "bank" df;
  kw ← tfidf_keywords banks (List.map str_of texts);
  Some (df, kw).

(** The dominant topic of one distribution:
    [max(topic_dist, key=lambda x: x[1])[0]] when the list is non-empty,
    [-1] otherwise. *)
Definition dominant_topic (topic_dist : list (Z * Q)) : Z :=
  match topic_dist with
  | [] => (-1)%Z
  | x :: r => fst (Py.max_by snd x r)
  end.

(** [perform_lda_topic_modeling(df, n_topics, n_words)] *)
Definition perform_lda_topic_modeling (df : frame) (n_topics n_words : nat)
  : option (list topic_words * frame) :=
  phrases ← get_col "tokens_with_phrases" df;
  documents ← mapM cell_tokens phrases;
  let corpus := List.map (doc2bow documents) documents in
  model ← lda_train corpus n_topics;
  let topics := List.map (fun idx => show_topic model idx n_words) (seq 0 n_topics) in
  let topic_assignments :=
    List.map (fun doc_bow => dominant_topic (get_document_topics model doc_bow)) corpus in
  df ← set_col "lda_topic" (List.map Int topic_assignments) df;
  Some (topics, df).

(** [perform_nmf_topic_modeling(df, n_topics, n_words)]; it too rewrites
    [processed_text] in the caller's frame. *)
Definition perform_nmf_topic_modeling (df : frame) (n_topics n_words : nat)
  : option (frame * nmf_topics) :=
  phrases ← get_col "tokens_with_phrases" df;
  docs ← mapM cell_tokens phrases;
  df ← set_col "processed_text" (List.map (fun x => Str (Py.join_spaces x)) docs) df;
  texts ← get_col "processed_text" df;
  topics ← nmf_fit (List.map str_of texts) n_topics n_words;
  Some (df, topics).

(** [save_lda_assignments(df)]: the file written to [LDA_OUTPUT]. *)
Definition save_lda_assignments (df : frame) : option csv :=
  lda_df ← select_cols ["review"; "bank"; "rating"; "lda_topic"] df;
  Some (to_csv lda_df).

(** [main()], from the frame [load_data] read to the file
    [data/lda_topics.csv]; [None] when a step raises.  The frame handed to
    the LDA step is returned too. *)
Definition main (loaded : frame) : option (frame * csv) :=
  df ← preprocess_text loaded;
  df ← create_bigrams_trigrams df;
  '(df, _) ← extract_tfidf_keywords df;
  let fitted := df in
  '(_, df) ← perform_lda_topic_modeling df 5 10;
  '(df, _) ← perform_nmf_topic_modeling df 5 10;
  out ← save_lda_assignments df;
  Some (fitted, out).

End Script.
End TopicModeling.

(** ** scripts/sentiment_analysis.py *)

Module SentimentAnalysis.
Import Pandas.

Section Script.

(** VADER: [analyzer.polarity_scores(s)['compound']]; TextBlob:
    [(blob.sentiment.polarity, blob.sentiment.subjectivity)]; Afinn:
    [afinn.score(s)].  A float is read as the rational it denotes. *)
Variable vader_compound : string -> Q.
Variable textblob_sentiment : string -> Q * Q.
Variable afinn_score : string -> Q.

(** Python's [str()] on a cell that is not a string. *)
Variable py_str : cell -> string.

(** pandas: [pd.to_datetime(col).dt.to_period('M')], [None] when a date
    does not parse. *)
Variable to_month : list cell -> option (list cell).

(** The aggregates a function prints from the frame it is given (groupby,
    corr, min and max, and the [index[0]] of the per-bank means) leave the
    frame alone but can raise: [report_ok df] says that they do not. *)
Variable report_ok : frame -> bool.

Definition str_of (c : cell) : string :=
  match c with Str s => s | _ => py_str c end.

(** [text == ""] *)
Definition is_empty_str (c : cell) : bool :=
  match c with Str s => String.eqb s "" | _ => false end.

(** The inner functions of the three [apply_*] functions. *)
Definition get_vader_scores (text : cell) : Q :=
  if isnull text || is_empty_str text then 0
  else vader_compound (str_of text).

Definition get_textblob_scores (text : cell) : Q * Q :=
  if isnull text || is_empty_str text then (0%Q, 0%Q)
  else textblob_sentiment (str_of text).

Definition get_afinn_score (text : cell) : Q :=
  if isnull text || is_empty_str text then 0
  else afinn_score (str_of text).

Definition apply_vader_sentiment (df : frame) : option frame :=
  review ← get_col "review" df;
  set_col "vader_compound" (List.map (fun c => Num (get_vader_scores c)) review) df.

Definition apply_textblob_sentiment (df : frame) : option frame :=
  review ← get_col "review" df;
  let textblob_scores := List.map get_textblob_scores review in
  df ← set_col "textblob_polarity" (List.map (fun x => Num (fst x)) textblob_scores) df;
  set_col "textblob_subjectivity" (List.map (fun x => Num (snd x)) textblob_scores) df.

Definition apply_afinn_sentiment (df : frame) : option frame :=
  review ← get_col "review" df;
  set_col "afinn_score" (List.map (fun c => Num (get_afinn_score c)) review) df.

(** [compute_aggregated_insights(df)]: the frame gains the column [month]. *)
Definition compute_aggregated_insights (df : frame) : option frame :=
  if report_ok df then
    date ← get_col "date" df;
    month ← to_month date;
    set_col "month" month df
  else None.

(** [pd.cut(x, bins=[-1, -0.05, 0.05, 1], labels=[...])] on one value: the
    bins are open on the left and closed on the right, a value in none of
    them (or NaN) gives NaN, a value that is no number raises. *)
Definition cut_value (q : Q) : cell :=
  if Qle_bool q (-1) then Null
  else if Qle_bool q (-5 # 100) then Str "Negative"
  else if Qle_bool q (5 # 100) then Str "Neutral"
  else if Qle_bool q 1 then Str "Positive"
  else Null.

Definition cut (c : cell) : option cell :=
  match c with
  | Num q => Some (cut_value q)
  | Int z => Some (cut_value (inject_Z z))
  | Null => Some Null
  | _ => None
  end.

(** [generate_summary_statistics(df)]: it assigns [sentiment_category] in
    the caller's frame, which is therefore returned. *)
Definition generate_summary_statistics (df : frame) : option frame :=
  if report_ok df then
    vader ← get_col "vader_compound" df;
    category ← mapM cut vader;
    set_col "sentiment_category" category df
  else None.

(** [save_results(df, filepath)]: the file written. *)
Definition save_results (df : frame) : csv :=
  let df_output := if has_col "month" df then drop_col "month" df else df in
  to_csv df_output.

(** The frame [main()] holds when it calls [save_results]. *)
Definition analysed (loaded : frame) : option frame :=
  df ← apply_vader_sentiment loaded;
  df ← apply_textblob_sentiment df;
  df ← apply_afinn_sentiment df;
  df ← compute_aggregated_insights df;
  generate_summary_statistics df.

(** [main()], from the frame [load_data] read to the file
    [data/sentiment_results.csv]; [None] when a step raises. *)
Definition main (loaded : frame) : option csv :=
  df ← analysed loaded;
  Some (save_results df).

End Script.

(** The columns the stage assigns, [month] included.  (Used to state what
    the stage leaves alone.) *)
Definition sentiment_columns : list string :=
  ["vader_compound"; "textblob_polarity"; "textblob_subjectivity";
   "afinn_score"; "month"; "sentiment_category"].

End SentimentAnalysis.

(** ** scripts/clean_reviews.py *)

Module CleanReviews.
Import Pandas.

Section Script.

(** pandas: [pd.to_datetime(s).strftime('%Y-%m-%d')], [None] when the
    string does not parse. *)
Variable to_datetime_ymd : string -> option string.

(** Python's [str()] on a cell that is not a string. *)
Variable py_str : cell -> string.

Definition str_of (c : cell) : string :=
  match c with Str s => s | _ => py_str c end.

(** [remove_duplicates(df)] *)
Definition remove_duplicates (df : frame) : option frame :=
  drop_duplicates ["review_text"; "bank_name"] df.

(** [series.fillna(value)] with the median as value; a NaN median fills
    nothing. *)
Definition fillna (value : option Q) (c : cell) : cell :=
  match c, value with
  | Null, Some m => Num m
  | _, _ => c
  end.

(** [handle_missing_values(df)]; the report of missing counts is left out.
    The median of a column that holds something else than numbers raises. *)
Definition handle_missing_values (df : frame) : option frame :=
  df ← dropna "review_text" df;
  rating ← get_col "rating" df;
  df ← (if existsb isnull rating then
          numbers ← mapM cell_num (List.filter (fun c => negb (isnull c)) rating);
          set_col "rating" (List.map (fillna (median numbers)) rating) df
        else Some df);
  dropna "date" df.

(** The inner function [parse_date(date_str)]: [None] is written [Null]. *)
Definition parse_date (date_str : cell) : cell :=
  match date_str with
  | Str s => match to_datetime_ymd s with Some d => Str d | None => Null end
  | _ => Null
  end.

(** [normalize_dates(df)] *)
Definition normalize_dates (df : frame) : option frame :=
  date ← get_col "date" df;
  df ← set_col "date" (List.map parse_date date) df;
  dropna "date" df.

(** The inner function [clean_review_text(text)]. *)
Definition clean_review_text (text : cell) : string :=
  if isnull text then ""
  else
    let text := str_of text in
    let text := Py.strip text in
    let text := Py.squeeze_spaces false text in
    Py.sub_nonprintable text.

(** [series.str.len() > 0] on one cell: NaN compares false. *)
Definition str_len_pos (c : cell) : bool :=
  match c with Str s => 0 <? Py.len s | _ => false end.

(** [clean_text(df)] *)
Definition clean_text (df : frame) : option frame :=
  review_text ← get_col "review_text" df;
  df ← set_col "review_text" (List.map (fun c => Str (clean_review_text c)) review_text) df;
  review_text ← get_col "review_text" df;
  Some (filter_rows (List.map str_len_pos review_text) df).

(** [standardize_schema(df)].  A raw file that already has a column named
    [review] or [bank] is outside the model ([None]). *)
Definition standardize_schema (df : frame) : option frame :=
  if has_col "review" df || has_col "bank" df then None
  else
    let df := rename_col "review_text" "review" df in
    let df := rename_col "bank_name" "bank" df in
    select_cols ["review"; "rating"; "date"; "bank"; "source"] df.

(** [(x < 1) | (x > 5)] on one cell of the rating column: NaN compares
    false, a string raises. *)
Definition rating_out_of_range (c : cell) : option bool :=
  match c with
  | Null => Some false
  | Str _ | Toks _ => None
  | _ => match cell_num c with
         | Some q => Some (negb (Qle_bool 1 q) || negb (Qle_bool q 5))
         | None => None
         end
  end.

(** [series.str.len() == 0] on one cell. *)
Definition str_len_zero (c : cell) : bool :=
  match c with Str s => Py.len s =? 0 | _ => false end.

Definition count_true (l : list bool) : nat := length (List.filter id l).

(** [df.isnull().sum().sum()] *)
Definition count_missing (df : frame) : nat :=
  list_sum (List.map (fun r => count_true (List.map (fun c => isnull (cell_at c r)) (columns df)))
              (rows df)).

(** [validate_data(df)]: [len(issues) == 0]. *)
Definition validate_data (df : frame) : option bool :=
  dup ← duplicated ["review"; "bank"] df;
  let duplicates := count_true dup in
  rating ← get_col "rating" df;
  bad ← mapM rating_out_of_range rating;
  let invalid_ratings := count_true bad in
  let missing := count_missing df in
  review ← get_col "review" df;
  let empty_reviews := count_true (List.map str_len_zero review) in
  Some ((duplicates =? 0) && (invalid_ratings =? 0) && (missing =? 0)
        && (empty_reviews =? 0)).

(** The frame [main()] validates and writes. *)
Definition cleaned (loaded : frame) : option frame :=
  df ← remove_duplicates loaded;
  df ← handle_missing_values df;
  df ← normalize_dates df;
  df ← clean_text df;
  standardize_schema df.

(** [main()] on an existing input file, up to the write of
    [data/bank_reviews_clean.csv]: the file written and the value of
    [is_valid], which [main] computes and does not consult. *)
Definition main (loaded : frame) : option (csv * bool) :=
  df ← cleaned loaded;
  is_valid ← validate_data df;
  Some (to_csv df, is_valid).

End Script.
End CleanReviews.

(** ** scripts/run_task2_analysis.py *)

Module RunTask2Analysis.

Section Script.

(** Does [main()] of the named module return?  [false]: it raises an
    [Exception] (which is what [run_module] catches). *)
Variable module_returns : string -> bool.

(** [os.path.exists('data/bank_reviews_clean.csv')] *)
Variable clean_csv_exists : bool.

(** What a run does, in order. *)
Inductive event :=
| Started (module_name : string)
| Completed (module_name : string)
| Failed (module_name : string).

(** The modules [run_module] knows; for any other name its [if]/[elif]
    chain runs nothing. *)
Definition known_module (module_name : string) : bool :=
  String.eqb module_name "sentiment_analysis"
  || String.eqb module_name "topic_modeling"
  || String.eqb module_name "visualizations"
  || String.eqb module_name "generate_report".

(** [run_module(module_name, description)]: the events it adds and the
    boolean it returns. *)
Definition run_module (module_name : string) (log : list event) : bool * list event :=
  if known_module module_name then
    if module_returns module_name
    then (true, log ++ [Started module_name; Completed module_name])
    else (false, log ++ [Started module_name; Failed module_name])
  else (true, log).

(** [check_prerequisites()] *)
Definition check_prerequisites : bool := clean_csv_exists.

(** [main()]: the events of the run and the exit status of the process
    ([sys.exit(1)], or 0 when [main] returns). *)
Definition main : list event * Z :=
  if negb check_prerequisites then ([], 1%Z)
  else
    let '(sentiment, log) := run_module "sentiment_analysis" [] in
    if negb sentiment then (log, 1%Z)
    else
      let '(topics, log) := run_module "topic_modeling" log in
      if negb topics then (log, 1%Z)
      else
        let '(visualizations, log) := run_module "visualizations" log in
        let '(report, log) := run_module "generate_report" log in
        (log, 0%Z).

(** The modules started, in order. *)
Fixpoint started (log : list event) : list string :=
  match log with
  | [] => []
  | Started m :: log' => m :: started log'
  | _ :: log' => started log'
  end.

End Script.

Definition pipeline : list string :=
  ["sentiment_analysis"; "topic_modeling"; "visualizations"; "generate_report"].

(** The events of modules run one after the other, each to its end, given
    with the boolean [run_module] returned for it.  (Used to state the
    order of a run.) *)
Fixpoint events_of (runs : list (string * bool)) : list event :=
  match runs with
  | [] => []
  | (m, ok) :: rest =>
      Started m :: (if ok then Completed m else Failed m) :: events_of rest
  end.

End RunTask2Analysis.

(** ** scripts/scrape_reviews.py *)

Module ScrapeReviews.

Section Script.

Variables review token : Type.

(** What one call of [google_play_scraper.reviews] does: it raises, or it
    returns a batch and a continuation token ([None]: a falsy token). *)
Inductive response :=
| Raised
| Returned (result : list review) (continuation_token : option token).

(** The API: the response to the [n]-th call, given the [count] and the
    continuation token passed. *)
Variable reviews : nat -> nat -> option token -> response.

Definition TARGET_REVIEWS_PER_APP : nat := 400.

(** The [while len(all_reviews) < count] loop of [scrape_app_reviews]:
    [calls] is the number of API calls made so far and [requested] the
    [count] arguments passed to them.  [fuel] bounds the number of
    iterations; [None] means the bound was reached. *)
Fixpoint scrape_loop (fuel count calls : nat) (all_reviews : list review)
  (continuation_token : option token) (requested : list nat)
  : option (list review * list nat) :=
  if count <=? length all_reviews then Some (all_reviews, requested)
  else
    match fuel with
    | O => None
    | S fuel' =>
        let batch := Nat.min 200 (count - length all_reviews) in
        let requested := requested ++ [batch] in
        match reviews calls batch continuation_token with
        | Raised => Some (all_reviews, requested)
        | Returned [] _ => Some (all_reviews, requested)
        | Returned result continuation_token =>
            let all_reviews := all_reviews ++ result in
            match continuation_token with
            | None => Some (all_reviews, requested)
            | Some _ =>
                scrape_loop fuel' count (S calls) all_reviews continuation_token requested
            end
        end
    end.

(** [scrape_app_reviews(app_id, bank_name, short_name, count)], up to the
    list [all_reviews] its data frame is built from, with the batch sizes it
    asked for.  Every iteration that goes on adds a review, so [count]
    iterations are enough. *)
Definition scrape_app_reviews (count : nat) : option (list review * list nat) :=
  scrape_loop count count 0 [] None [].

End Script.
End ScrapeReviews.

(** ** scripts/insert_into_postgres.py *)

Module InsertIntoPostgres.
Import Pandas.

(** How a method of [PostgreSQLInserter] ends: it returns, it re-raises a
    [psycopg2.Error] from its [except] clause, or another exception (a
    KeyError, a ValueError of [int()]) passes through it uncaught. *)
Inductive outcome (A : Type) :=
| Returns (a : A)
| DatabaseError
| OtherError.
Arguments Returns {A} a.
Arguments DatabaseError {A}.
Arguments OtherError {A}.

(** What the connection was asked to do and did. *)
Inductive db_event := Commit | Rollback.

(** A Python dictionary with cells as keys, in insertion order. *)
Fixpoint dict_get (key : cell) (d : list (cell * Z)) : option Z :=
  match d with
  | [] => None
  | (k, v) :: d' => if cell_eqb key k then Some v else dict_get key d'
  end.

Fixpoint dict_set (key : cell) (v : Z) (d : list (cell * Z)) : list (cell * Z) :=
  match d with
  | [] => [(key, v)]
  | (k, w) :: d' => if cell_eqb key k then (k, v) :: d' else (k, w) :: dict_set key v d'
  end.

Section Script.

(** PostgreSQL through psycopg2.  [db] is the content of the tables;
    a statement run on the open transaction gives a new content or raises
    a [psycopg2.Error] ([None]). *)
Variables db date : Type.

(** The seven values bound to one INSERT INTO reviews; the two sentiment
    fields are always NULL. *)
Record review_tuple := {
  bank_id : Z;
  review_text : cell;
  rating : Z;
  review_date : date;
  sentiment_label : option string;
  sentiment_score : option Q;
  source : cell
}.

(** [INSERT INTO banks ... ON CONFLICT ... RETURNING bank_id] with the
    parameters [(bank_name, bank_name)], and the row [fetchone()] reads. *)
Variable insert_bank : db -> cell -> cell -> option (db * Z).
(** One [INSERT INTO reviews]. *)
Variable insert_review : db -> review_tuple -> option db.
(** Does [conn.commit()] of a transaction with this content succeed? *)
Variable commit_ok : db -> bool.
(** [pd.to_datetime(x).date()], [None] when it raises. *)
Variable to_date : cell -> option date.
(** [datetime.now().date()] *)
Variable today : date.
(** [int(s)] on a string, [None] when it raises. *)
Variable int_of_str : string -> option Z.

(** A connection: what is committed, what the open transaction sees, and
    the commits and rollbacks carried out so far. *)
Record connection := {
  committed : db;
  working : db;
  history : list db_event
}.

Definition execute (c : connection) (w : db) : connection :=
  {| committed := committed c; working := w; history := history c |}.

(** [self.conn.rollback()] *)
Definition rollback (c : connection) : connection :=
  {| committed := committed c; working := committed c;
     history := history c ++ [Rollback] |}.

(** [self.conn.commit()]: [None] when it raises; the transaction is then
    still to be rolled back. *)
Definition commit (c : connection) : option connection :=
  if commit_ok (working c)
  then Some {| committed := working c; working := working c;
               history := history c ++ [Commit] |}
  else None.

(** The [for bank_name in unique_banks] loop of [insert_banks]: the
    connection after the last statement that ran, and the mapping unless a
    statement raised. *)
Fixpoint insert_each_bank (unique_banks : list cell) (c : connection)
  (bank_mapping : list (cell * Z)) : connection * option (list (cell * Z)) :=
  match unique_banks with
  | [] => (c, Some bank_mapping)
  | bank_name :: rest =>
      match insert_bank (working c) bank_name bank_name with
      | None => (c, None)
      | Some (w, id) =>
          insert_each_bank rest (execute c w) (dict_set bank_name id bank_mapping)
      end
  end.

(** [insert_banks(self, df)] *)
Definition insert_banks (c : connection) (df : frame)
  : connection * outcome (list (cell * Z)) :=
  match get_col "bank" df with
  | None => (c, OtherError)
  | Some bank =>
      let unique_banks := unique bank in
      match insert_each_bank unique_banks c [] with
      | (c, None) => (rollback c, DatabaseError)
      | (c, Some bank_mapping) =>
          match commit c with
          | Some c => (c, Returns bank_mapping)
          | None => (rollback c, DatabaseError)
          end
      end
  end.

(** [row[name]]: a KeyError ([None]) when the frame lacks the column. *)
Definition row_get (df : frame) (name : string) (r : nat * gmap string cell)
  : option cell :=
  if has_col name df then Some (cell_at name r) else None.

(** [int(x)] on a cell: numbers are truncated towards zero, NaN raises. *)
Definition py_int (c : cell) : option Z :=
  match c with
  | Int z => Some z
  | Num q => Some (Z.quot (Qnum q) (Zpos (Qden q)))
  | Str s => int_of_str s
  | _ => None
  end.

(** The [try: ... except: ...] around the date of a row. *)
Definition parse_review_date (df : frame) (r : nat * gmap string cell) : date :=
  match row_get df "date" r with
  | Some d => match to_date d with Some x => x | None => today end
  | None => today
  end.

(** One pass of the [for _, row in df.iterrows()] loop: [Some None] for a
    row skipped by [continue], [Some (Some t)] for a tuple appended, [None]
    when an exception leaves the loop. *)
Definition prepare_row (df : frame) (bank_mapping : list (cell * Z))
  (r : nat * gmap string cell) : option (option review_tuple) :=
  bank ← row_get df "bank" r;
  match dict_get bank bank_mapping with
  | None => Some None
  | Some id =>
      let review_date := parse_review_date df r in
      text ← row_get df "review" r;
      rating_cell ← row_get df "rating" r;
      stars ← py_int rating_cell;
      src ← row_get df "source" r;
      Some (Some {| bank_id := id; review_text := text; rating := stars;
                    review_date := review_date; sentiment_label := None;
                    sentiment_score := None; source := src |})
  end.

Fixpoint prepare_rows (df : frame) (bank_mapping : list (cell * Z))
  (rs : list (nat * gmap string cell)) : option (list review_tuple) :=
  match rs with
  | [] => Some []
  | r :: rs' =>
      t ← prepare_row df bank_mapping r;
      review_data ← prepare_rows df bank_mapping rs';
      Some (match t with Some x => x :: review_data | None => review_data end)
  end.

(** [extras.execute_batch(self.cursor, insert_query, review_data)]: the
    statements run in order; the first that raises ends the batch. *)
Fixpoint execute_batch (review_data : list review_tuple) (c : connection)
  : connection * bool :=
  match review_data with
  | [] => (c, true)
  | t :: rest =>
      match insert_review (working c) t with
      | None => (c, false)
      | Some w => execute_batch rest (execute c w)
      end
  end.

(** [insert_reviews(self, df, bank_mapping)]: it returns
    [len(review_data)]. *)
Definition insert_reviews (c : connection) (df : frame)
  (bank_mapping : list (cell * Z)) : connection * outcome nat :=
  match prepare_rows df bank_mapping (rows df) with
  | None => (c, OtherError)
  | Some review_data =>
      match execute_batch review_data c with
      | (c, false) => (rollback c, DatabaseError)
      | (c, true) =>
          match commit c with
          | Some c => (c, Returns (length review_data))
          | None => (rollback c, DatabaseError)
          end
      end
  end.

(** Is the bank of a row a key of the mapping?  (Used to state which rows
    [insert_reviews] inserts.) *)
Definition bank_known (bank_mapping : list (cell * Z))
  (r : nat * gmap string cell) : bool :=
  match dict_get (cell_at "bank" r) bank_mapping with
  | Some _ => true
  | None => false
  end.

End Script.
End InsertIntoPostgres.

(** ** Searching a text for a pattern *)

Module Regex.

(** No position of [s] starts a match: [re.search] would find nothing.
    (Used to state what the substitutions leave behind.) *)
Fixpoint never_starts (starts : string -> bool) (s : string) : bool :=
  match s with
  | EmptyString => negb (starts EmptyString)
  | String c r => negb (starts s) && never_starts starts r
  end.

(** The text is empty or begins with whitespace. *)
Definition begins_blank (s : string) : bool :=
  match s with
  | EmptyString => true
  | String c _ => Py.isspace c
  end.

(** A printable ASCII character, U+0020..U+007E.  (Used to state what the
    cleaned review text is made of.) *)
Definition printable_ascii (c : ascii) : bool :=
  let n := nat_of_ascii c in (32 <=? n) && (n <=? 126).

End Regex.

(** ** scripts/generate_report.py *)

Module GenerateReport.

(** [any(word in words_lower for word in keywords)] *)
Definition any_in (keywords words_lower : list string) : bool :=
  existsb (fun word => existsb (String.eqb word) words_lower) keywords.

(** [interpret_topic(words)] *)
Definition interpret_topic (words : list string) : string :=
  let words_lower := List.map Py.lower words in
  if any_in ["crash"; "error"; "problem"; "issue"; "bug"] words_lower then
    "Technical issues and app stability problems"
  else if any_in ["login"; "password"; "account"; "access"] words_lower then
    "Authentication and account access concerns"
  else if any_in ["transfer"; "transaction"; "payment"; "money"] words_lower then
    "Transaction and payment-related topics"
  else if any_in ["easy"; "simple"; "convenient"; "fast"; "good"] words_lower then
    "Positive user experience and convenience"
  else if any_in ["update"; "new"; "feature"; "version"] words_lower then
    "App updates and new features"
  else if any_in ["service"; "support"; "help"; "customer"] words_lower then
    "Customer service and support"
  else if any_in ["network"; "connection"; "internet"; "server"] words_lower then
    "Network connectivity and server issues"
  else
    "General banking app experience".

(** The label of a bank's mean score in the table of [generate_report]:
    ["Positive" if mean > 0.05 else ("Negative" if mean < -0.05 else
    "Neutral")]. *)
Definition interpretation (mean : Q) : string :=
  if negb (Qle_bool mean (5 # 100)) then "Positive"
  else if negb (Qle_bool (- (5 # 100)) mean) then "Negative"
  else "Neutral".

(** The filter [bank_data['vader_compound'] < -0.05] that counts a bank's
    negative reviews. *)
Definition negative_review (vader_compound : Q) : bool :=
  negb (Qle_bool (- (5 # 100)) vader_compound).

(** The category [analyze_sentiment_insights] assigns to a score: the same
    [pd.cut] call as in the sentiment stage. *)
Definition sentiment_category (vader_compound : Q) : Pandas.cell :=
  SentimentAnalysis.cut_value vader_compound.

End GenerateReport.

(** ** Sample library behaviours and inputs

    Concrete stand-ins for the third-party functions, used only to run the
    scripts on examples. *)

Module Samples.
Import Pandas.

(** A few entries of NLTK's English stop word list. *)
Definition nltk_english : gset string :=
  list_to_set ["the"; "and"; "are"; "was"; "very"; "this"; "that"; "you"].

(** On text made of letters and whitespace [word_tokenize] splits at
    whitespace. *)
Definition word_tokenize (s : string) : list string := String.words s.

(** [WordNetLemmatizer().lemmatize] reduces a plural noun to its singular:
    'banks' to 'bank', 'apps' to 'app', 'crashes' to 'crash'. *)
Definition lemmatize (w : string) : string :=
  if String.eqb w "banks" then "bank"
  else if String.eqb w "apps" then "app"
  else if String.eqb w "crashes" then "crash"
  else w.

Definition py_str (c : cell) : string :=
  match c with Int 5 => "5" | _ => "nan" end.

(** Phrase models that found no phrase. *)
Definition apply_phrases (sentences : list (list string)) (x : list string)
  : list string := x.

Definition tfidf_keywords (banks : list cell) (texts : list string) : option unit :=
  Some tt.

Definition nmf_fit (texts : list string) (n_topics n_words : nat) : option unit :=
  Some tt.

Definition doc2bow (documents : list (list string)) (doc : list string)
  : list string := doc.

Definition lda_train (corpus : list (list string)) (n_topics : nat) : option unit :=
  Some tt.

Definition show_topic (model : unit) (idx n_words : nat) : unit := tt.

(** A topic distribution with a tie between topics 3 and 2, and the empty
    distribution for an empty bag of words. *)
Definition get_document_topics (model : unit) (doc_bow : list string)
  : list (Z * Q) :=
  match doc_bow with
  | [] => []
  | _ => [(0%Z, 1 # 10); (3%Z, 4 # 10); (2%Z, 4 # 10); (4%Z, 1 # 10)]
  end.

Definition sentiment_results : frame :=
  read_csv
    {| header := ["review"; "rating"; "date"; "bank"; "source"];
       lines :=
         [[Str "Great transfer speed"; Int 5; Str "2024-01-05"; Str "CBE"; Str "google_play"];
          [Str "good app"; Int 4; Str "2024-01-06"; Str "BOA"; Str "google_play"];
          [Null; Int 1; Str "2024-01-07"; Str "BOA"; Str "google_play"];
          [Str "The app crashes, see http://x.y"; Int 1; Str "2024-02-01"; Str "Dashen"; Str "google_play"]] |}.

(** Sentiment scorers, the month of an ISO date, and aggregates that raise
    on an empty frame only. *)
Definition vader_compound (s : string) : Q :=
  if Py.starts_with "Great" s then 6249 # 10000
  else if Py.starts_with "good" s then 4404 # 10000
  else - (4019 # 10000).

Definition textblob_sentiment (s : string) : Q * Q :=
  if Py.starts_with "Great" s then (8 # 10, 75 # 100) else (0, 0)%Q.

Definition afinn_score (s : string) : Q :=
  if Py.starts_with "Great" s then 3 else 0.

Definition to_month (dates : list cell) : option (list cell) :=
  mapM (fun c => match c with Str d => Some (Str (substring 0 7 d)) | _ => None end)
    dates.

Definition report_ok (df : frame) : bool := 0 <? nrows df.

Definition run_sentiment_analysis (loaded : frame) : option csv :=
  SentimentAnalysis.main vader_compound textblob_sentiment afinn_score py_str
    to_month report_ok loaded.

(** Two review APIs.  The first serves at most 150 reviews a call and never
    more than asked; the second answers every call with two reviews, however
    many were asked for. *)
Definition paged_api (call count : nat) (continuation_token : option unit)
  : ScrapeReviews.response nat unit :=
  ScrapeReviews.Returned nat unit (repeat call (Nat.min count 150)) (Some tt).

Definition generous_api (call count : nat) (continuation_token : option unit)
  : ScrapeReviews.response nat unit :=
  ScrapeReviews.Returned nat unit [call; call] (Some tt).

(** A database that logs its statements: the bank named BOA cannot be
    inserted (a [psycopg2.Error]), every other statement and every commit
    succeeds.  Dates: the text of an ISO date, anything else fails to
    parse. *)
Definition insert_bank (w : list string) (bank_name app_name : cell)
  : option (list string * Z) :=
  match bank_name with
  | Str s => if String.eqb s "BOA" then None
             else Some (w ++ [s], Z.of_nat (length w))
  | _ => None
  end.

Definition insert_review (w : list string)
  (t : InsertIntoPostgres.review_tuple string) : option (list string) :=
  Some (w ++ [InsertIntoPostgres.review_date string t]).

Definition commit_ok (w : list string) : bool := true.

Definition to_date (c : cell) : option string :=
  match c with
  | Str d => if String.length d =? 10 then Some d else None
  | _ => None
  end.

Definition today : string := "2026-01-01".

Definition int_of_str (s : string) : option Z := None.

Definition fresh_connection : InsertIntoPostgres.connection (list string) :=
  InsertIntoPostgres.Build_connection (list string) [] [] [].

Definition run_insert_banks (df : frame) :=
  InsertIntoPostgres.insert_banks (list string) insert_bank commit_ok
    fresh_connection df.

Definition run_insert_reviews (df : frame) (bank_mapping : list (cell * Z)) :=
  InsertIntoPostgres.insert_reviews (list string) string insert_review commit_ok
    to_date today int_of_str fresh_connection df bank_mapping.

(** Reviews of three banks, one with a date that does not parse; and a
    mapping that knows two of the banks. *)
Definition reviews_to_insert : frame :=
  read_csv
    {| header := ["review"; "rating"; "date"; "bank"; "source"];
       lines :=
         [[Str "fast"; Int 5; Str "2024-01-05"; Str "CBE"; Str "google_play"];
          [Str "slow"; Int 2; Str "yesterday"; Str "Dashen"; Str "google_play"];
          [Str "fine"; Int 4; Str "2024-01-07"; Str "BOA"; Str "google_play"]] |}.

Definition two_banks : list (cell * Z) := [(Str "CBE", 1%Z); (Str "Dashen", 2%Z)].

(** A raw file with two reviews that differ in spacing only, a rating of
    7 and a missing bank name; dates parse when they have ten characters. *)
Definition to_datetime_ymd (s : string) : option string :=
  if String.length s =? 10 then Some s else None.

Definition bank_reviews_raw : frame :=
  read_csv
    {| header := ["review_text"; "rating"; "date"; "bank_name"; "source"];
       lines :=
         [[Str "good  app"; Int 5; Str "2024-01-05"; Str "CBE"; Str "google_play"];
          [Str "good app"; Int 4; Str "2024-01-06"; Str "CBE"; Str "google_play"];
          [Str "   "; Int 3; Str "2024-01-06"; Str "CBE"; Str "google_play"];
          [Str "nice"; Int 7; Str "2024-01-07"; Null; Str "google_play"];
          [Str "late"; Int 2; Str "last week"; Str "BOA"; Str "google_play"]] |}.

(** A raw file without such defects: one row repeats another, one rating
    is missing (the median of the others, 3, fills it). *)
Definition bank_reviews_raw_sound : frame :=
  read_csv
    {| header := ["review_text"; "rating"; "date"; "bank_name"; "source"];
       lines :=
         [[Str " Fast  transfers "; Int 5; Str "2024-01-05"; Str "CBE"; Str "google_play"];
          [Str "Fast transfers"; Null; Str "2024-01-06"; Str "BOA"; Str "google_play"];
          [Str "Fast transfers"; Int 2; Str "2024-01-08"; Str "BOA"; Str "google_play"];
          [Str "Crashes"; Int 1; Str "2024-01-06"; Str "BOA"; Str "google_play"]] |}.

(** What the script writes for [bank_reviews_raw]. *)
Definition bank_reviews_clean : csv :=
  {| header := ["review"; "rating"; "date"; "bank"; "source"];
     lines :=
       [[Str "good app"; Int 5; Str "2024-01-05"; Str "CBE"; Str "google_play"];
        [Str "good app"; Int 4; Str "2024-01-06"; Str "CBE"; Str "google_play"];
        [Str "nice"; Int 7; Str "2024-01-07"; Null; Str "google_play"]] |}.

Definition run_clean_reviews (loaded : frame) : option (csv * bool) :=
  CleanReviews.main to_datetime_ymd py_str loaded.

(** A run in which only the visualizations fail. *)
Definition only_visualizations_fail (module_name : string) : bool :=
  negb (String.eqb module_name "visualizations").

(** [topic_modeling.main] and its steps with the stand-ins above. *)
Definition clean_text : cell -> list string :=
  TopicModeling.clean_text nltk_english word_tokenize lemmatize py_str.

Definition run_topic_modeling (loaded : frame) : option (frame * csv) :=
  TopicModeling.main nltk_english word_tokenize lemmatize py_str apply_phrases
    unit unit tfidf_keywords nmf_fit (list string) unit unit doc2bow lda_train
    show_topic get_document_topics loaded.

Definition run_lda (df : frame) : option (list unit * frame) :=
  TopicModeling.perform_lda_topic_modeling (list string) unit unit doc2bow
    lda_train show_topic get_document_topics df 5 10.

(** The frame [main] hands to the LDA step on the sample input. *)
Definition fitted_frame : frame :=
  match run_topic_modeling sentiment_results with
  | Some (fitted, _) => fitted
  | None => {| columns := []; rows := [] |}
  end.

End Samples.

(** * Properties *)

(** ** Data frames *)

(** Membership of a column name in an explicit list of names. *)
Ltac in_cols := apply list_elem_of_In; simpl; auto 12.
Ltac notin_cols := rewrite list_elem_of_In; simpl; intuition discriminate.

Section PandasFacts.
Import Pandas.

Implicit Types (df : frame) (rs : list (nat * gmap string cell)).
Implicit Types (name other : string) (vals : list cell) (mask : list bool).

Lemma has_col_true name df : has_col name df = true <-> name ∈ columns df.
Proof. unfold has_col. apply bool_decide_eq_true. Qed.

Lemma get_col_Some name df col :
  get_col name df = Some col ->
  name ∈ columns df /\ col = List.map (cell_at name) (rows df).
Proof.
  unfold get_col. destruct (has_col name df) eqn:E; [|discriminate].
  intros [= <-]. split; [by apply has_col_true|done].
Qed.

Lemma get_col_length name df col :
  get_col name df = Some col -> length col = nrows df.
Proof.
  intros [_ ->]%get_col_Some. unfold nrows. by rewrite length_map.
Qed.

Lemma put_cells_fst name vals rs :
  List.map fst (put_cells name vals rs) = List.map fst rs.
Proof.
  revert vals. induction rs as [|r rs IH]; intros [|v vals]; simpl; try done.
  by rewrite IH.
Qed.

Lemma put_cells_length name vals rs :
  length (put_cells name vals rs) = length rs.
Proof.
  revert vals. induction rs as [|r rs IH]; intros [|v vals]; simpl; try done.
  by rewrite IH.
Qed.

Lemma put_cells_same name vals rs :
  length vals = length rs ->
  List.map (cell_at name) (put_cells name vals rs) = vals.
Proof.
  revert vals. induction rs as [|r rs IH]; intros [|v vals]; simpl; try done.
  intros [= H]. rewrite IH by done. f_equal.
  unfold cell_at. simpl. by rewrite lookup_insert_eq.
Qed.

Lemma put_cells_other name other vals rs :
  name <> other ->
  List.map (cell_at other) (put_cells name vals rs) = List.map (cell_at other) rs.
Proof.
  intros Hne. revert vals.
  induction rs as [|r rs IH]; intros [|v vals]; simpl; try done.
  rewrite IH. f_equal. unfold cell_at. simpl. by rewrite lookup_insert_ne.
Qed.

Lemma set_col_Some name vals df df' :
  set_col name vals df = Some df' ->
  length vals = nrows df
  /\ rows df' = put_cells name vals (rows df)
  /\ columns df' = (if has_col name df then columns df else columns df ++ [name]).
Proof.
  unfold set_col. destruct (length vals =? nrows df) eqn:E; [|discriminate].
  apply Nat.eqb_eq in E. by intros [= <-].
Qed.

Lemma set_col_is_Some name vals df :
  length vals = nrows df -> is_Some (set_col name vals df).
Proof.
  intros H. unfold set_col. apply Nat.eqb_eq in H. rewrite H. eauto.
Qed.

Lemma set_col_index name vals df df' :
  set_col name vals df = Some df' -> index df' = index df.
Proof.
  intros (_ & Hr & _)%set_col_Some. unfold index. rewrite Hr.
  apply put_cells_fst.
Qed.

Lemma set_col_nrows name vals df df' :
  set_col name vals df = Some df' -> nrows df' = nrows df.
Proof.
  intros (_ & Hr & _)%set_col_Some. unfold nrows. rewrite Hr.
  apply put_cells_length.
Qed.

Lemma set_col_has_col name other vals df df' :
  set_col name vals df = Some df' ->
  has_col other df' = has_col other df || String.eqb other name.
Proof.
  intros (_ & _ & Hc)%set_col_Some. unfold has_col at 1. rewrite Hc.
  destruct (has_col name df) eqn:Hn.
  - destruct (String.eqb_spec other name) as [->|Hne].
    + rewrite Hn. simpl. apply bool_decide_eq_true. by apply has_col_true.
    + by rewrite orb_false_r.
  - destruct (has_col other df) eqn:Ho; simpl.
    + apply bool_decide_eq_true. apply elem_of_app. left. by apply has_col_true.
    + destruct (String.eqb_spec other name) as [->|Hne].
      * apply bool_decide_eq_true. apply elem_of_app. right. by apply list_elem_of_singleton.
      * apply bool_decide_eq_false. intros [H|H%list_elem_of_singleton]%elem_of_app; [|done].
        apply has_col_true in H. congruence.
Qed.

Lemma get_col_set_col_same name vals df df' :
  set_col name vals df = Some df' -> get_col name df' = Some vals.
Proof.
  intros H. unfold get_col. rewrite (set_col_has_col _ _ _ _ _ H).
  rewrite String.eqb_refl, orb_true_r.
  destruct (set_col_Some _ _ _ _ H) as (Hl & -> & _).
  by rewrite put_cells_same.
Qed.

Lemma get_col_set_col_other name other vals df df' :
  name <> other ->
  set_col name vals df = Some df' -> get_col other df' = get_col other df.
Proof.
  intros Hne H. unfold get_col. rewrite (set_col_has_col _ _ _ _ _ H).
  destruct (String.eqb_spec other name) as [->|_]; [done|].
  rewrite orb_false_r.
  destruct (set_col_Some _ _ _ _ H) as (_ & -> & _).
  by rewrite put_cells_other.
Qed.

Lemma get_col_set_col_ne name other vals df df' :
  set_col name vals df = Some df' -> String.eqb name other = false ->
  get_col other df' = get_col other df.
Proof.
  intros H Hne. eapply get_col_set_col_other; [|done].
  by apply String.eqb_neq.
Qed.

Lemma mask_list_map {A B} (f : A -> B) mask (l : list A) :
  mask_list mask (List.map f l) = List.map f (mask_list mask l).
Proof.
  revert l. induction mask as [|b mask IH]; intros [|x l]; simpl; try done.
  destruct b; simpl; by rewrite IH.
Qed.

Lemma mask_list_length_le {A} mask (l : list A) :
  length (mask_list mask l) <= length l.
Proof.
  revert l. induction mask as [|b mask IH]; intros [|x l]; simpl; try lia.
  specialize (IH l). destruct b; simpl; lia.
Qed.

Lemma mask_list_Forall {A} (P : A -> Prop) (p : A -> bool) (l : list A) :
  (forall x, p x = true -> P x) ->
  Forall P (mask_list (List.map p l) l).
Proof.
  intros Hp. induction l as [|x l IH]; simpl; [constructor|].
  destruct (p x) eqn:E; [constructor; auto|done].
Qed.

Lemma filter_rows_get_col name mask df :
  get_col name (filter_rows mask df) = mask_list mask <$> get_col name df.
Proof.
  unfold get_col, has_col, filter_rows. simpl.
  case_bool_decide; simpl; [|done]. by rewrite mask_list_map.
Qed.

Lemma filter_rows_index mask df :
  index (filter_rows mask df) = mask_list mask (index df).
Proof. unfold index, filter_rows. simpl. by rewrite mask_list_map. Qed.

Lemma cell_at_project names name r :
  name ∈ names -> cell_at name (project names r) = cell_at name r.
Proof.
  intros Hin. unfold cell_at at 1. unfold project. simpl.
  induction names as [|c names IH]; [by apply elem_of_nil in Hin|].
  simpl. destruct (decide (c = name)) as [->|Hne].
  - by rewrite lookup_insert_eq.
  - rewrite lookup_insert_ne by done. apply IH.
    apply elem_of_cons in Hin as [->|]; done.
Qed.

Lemma select_cols_Some names df df' :
  select_cols names df = Some df' ->
  columns df' = names /\ index df' = index df
  /\ forall name, name ∈ names -> get_col name df' = get_col name df.
Proof.
  unfold select_cols. destruct (forallb _ names) eqn:E; [|discriminate].
  intros [= <-]. simpl. split; [done|]. split.
  - unfold index. simpl. rewrite List.map_map. done.
  - intros name Hin. unfold get_col, has_col. simpl.
    rewrite forallb_forall in E.
    rewrite (bool_decide_eq_true_2 _ Hin).
    assert (has_col name df = true) as Hc
      by (apply E; by apply list_elem_of_In).
    unfold has_col in Hc. rewrite Hc. f_equal.
    rewrite List.map_map. apply map_ext. intros r. by apply cell_at_project.
Qed.

Lemma frame_adds_refl names df : frame_adds names df df.
Proof. by split. Qed.

Lemma frame_adds_set_col name vals df df' :
  set_col name vals df = Some df' -> frame_adds [name] df df'.
Proof.
  intros H. split; [by eapply set_col_index|].
  intros other Hne. eapply get_col_set_col_other; [|done].
  intros ->. apply Hne. by apply list_elem_of_singleton.
Qed.

Lemma frame_adds_trans names1 names2 df1 df2 df3 :
  frame_adds names1 df1 df2 -> frame_adds names2 df2 df3 ->
  frame_adds (names1 ++ names2) df1 df3.
Proof.
  intros [Hi1 Hc1] [Hi2 Hc2]. split; [congruence|].
  intros name Hn. rewrite Hc2, Hc1; [done| |];
    intros Hin; apply Hn, elem_of_app; auto.
Qed.

Lemma frame_adds_nrows names df df' :
  frame_adds names df df' -> nrows df' = nrows df.
Proof.
  intros [Hi _]. unfold nrows. unfold index in Hi.
  by rewrite <- (length_map fst (rows df')), Hi, length_map.
Qed.

End PandasFacts.

(** ** Text primitives *)

Example lower_ex : Py.lower "Good APP!" = "good app!".
Proof. reflexivity. Qed.

Example sub_urls_ex :
  Py.sub_urls "see https://x.y/z now www.a.b http www" = "see  now  http www".
Proof. reflexivity. Qed.

Example sub_emails_ex :
  Py.sub_emails "mail me@x.org or @x or a@ ok" = "mail  or @x or a@ ok".
Proof. reflexivity. Qed.

Example strip_ex : Py.strip "  a  b  " = "a  b".
Proof. reflexivity. Qed.

Example squeeze_ex : Py.squeeze_spaces false "a  b   c" = "a b c".
Proof. reflexivity. Qed.

Lemma sub_nonletters_chars s :
  Py.all_chars (fun c => Py.is_az c || Py.isspace c) (Py.sub_nonletters s) = true.
Proof.
  unfold Py.sub_nonletters.
  induction s as [|c s IH]; simpl; [done|].
  rewrite IH, andb_true_r.
  destruct (Py.is_az c || Py.isspace c) eqn:E; [done|reflexivity].
Qed.

(** ** Topic modelling: preprocessing *)

Section TopicModelingFacts.
Import Pandas TopicModeling.

Context (nltk_english : gset string) (word_tokenize : string -> list string)
  (lemmatize : string -> string) (py_str : cell -> string)
  (apply_phrases : list (list string) -> list string -> list string)
  (keywords nmf_topics : Type)
  (tfidf_keywords : list cell -> list string -> option keywords)
  (nmf_fit : list string -> nat -> nat -> option nmf_topics)
  (bow lda_model topic_words : Type)
  (doc2bow : list (list string) -> list string -> bow)
  (lda_train : list bow -> nat -> option lda_model)
  (show_topic : lda_model -> nat -> nat -> topic_words)
  (get_document_topics : lda_model -> bow -> list (Z * Q)).

Local Abbreviation stop_words := (TopicModeling.stop_words nltk_english).
Local Abbreviation keep_word := (TopicModeling.keep_word nltk_english).
Local Abbreviation str_of := (TopicModeling.str_of py_str).
Local Abbreviation clean_text :=
  (TopicModeling.clean_text nltk_english word_tokenize lemmatize py_str).
Local Abbreviation has_token :=
  (TopicModeling.has_token nltk_english word_tokenize lemmatize py_str).
Local Abbreviation preprocess_text :=
  (TopicModeling.preprocess_text nltk_english word_tokenize lemmatize py_str).
Local Abbreviation create_bigrams_trigrams :=
  (TopicModeling.create_bigrams_trigrams apply_phrases).
Local Abbreviation extract_tfidf_keywords :=
  (TopicModeling.extract_tfidf_keywords py_str keywords tfidf_keywords).
Local Abbreviation perform_lda_topic_modeling :=
  (TopicModeling.perform_lda_topic_modeling bow lda_model topic_words doc2bow
     lda_train show_topic get_document_topics).
Local Abbreviation perform_nmf_topic_modeling :=
  (TopicModeling.perform_nmf_topic_modeling py_str nmf_topics nmf_fit).
Local Abbreviation main :=
  (TopicModeling.main nltk_english word_tokenize lemmatize py_str apply_phrases
     keywords nmf_topics tfidf_keywords nmf_fit bow lda_model topic_words
     doc2bow lda_train show_topic get_document_topics).

Lemma keep_word_true w :
  keep_word w = true -> (w ∉ stop_words) /\ 3 <= Py.len w.
Proof.
  unfold TopicModeling.keep_word. intros [H1 H2]%andb_true_iff.
  apply negb_true_iff, bool_decide_eq_false in H1.
  apply Nat.leb_le in H2. done.
Qed.

Lemma clean_text_null : clean_text Null = [].
Proof. reflexivity. Qed.

Lemma clean_text_not_null text :
  isnull text = false ->
  clean_text text
  = List.map lemmatize
      (List.filter keep_word (word_tokenize (normalize (str_of text)))).
Proof. unfold TopicModeling.clean_text. by intros ->. Qed.

Lemma kept_words_pass text :
  Forall (fun w => (w ∉ stop_words) /\ 3 <= Py.len w)
    (List.filter keep_word (word_tokenize (normalize (str_of text)))).
Proof.
  apply List.Forall_forall. intros w [_ Hw]%filter_In. by apply keep_word_true.
Qed.

Lemma mapM_cell_len_tokens (f : cell -> list string) (l : list cell) :
  mapM cell_len (List.map (fun c => Toks (f c)) l)
  = Some (List.map (fun c => length (f c)) l).
Proof.
  induction l as [|c l IH]; [done|].
  change (List.map (fun c => Toks (f c)) (c :: l))
    with (Toks (f c) :: List.map (fun c => Toks (f c)) l).
  simpl mapM. rewrite IH. done.
Qed.

Lemma preprocess_text_Some df df' :
  preprocess_text df = Some df' ->
  exists review,
    get_col "review" df = Some review
    /\ index df' = mask_list (List.map has_token review) (index df)
    /\ get_col "review" df' = Some (mask_list (List.map has_token review) review)
    /\ get_col "tokens" df'
       = Some (List.map (fun c => Toks (clean_text c))
                 (mask_list (List.map has_token review) review))
    /\ (forall name, name <> "tokens" ->
          get_col name df'
          = mask_list (List.map has_token review) <$> get_col name df).
Proof.
  unfold TopicModeling.preprocess_text. intros H.
  apply bind_Some in H as (review & Hreview & H).
  apply bind_Some in H as (df1 & Hset & H).
  rewrite (get_col_set_col_same _ _ _ _ Hset) in H. simpl in H.
  rewrite mapM_cell_len_tokens in H. simpl in H. injection H as <-.
  exists review. split; [done|].
  assert (List.map (fun n => 0 <? n) (List.map (fun c => length (clean_text c)) review)
          = List.map has_token review) as ->.
  { rewrite List.map_map. apply map_ext. intros c.
    unfold TopicModeling.has_token. by destruct (clean_text c). }
  split; [|split; [|split]].
  - rewrite filter_rows_index. by rewrite (set_col_index _ _ _ _ Hset).
  - rewrite filter_rows_get_col.
    rewrite (get_col_set_col_other "tokens" "review" _ _ _ ltac:(discriminate) Hset).
    by rewrite Hreview.
  - rewrite filter_rows_get_col, (get_col_set_col_same _ _ _ _ Hset). simpl.
    by rewrite mask_list_map.
  - intros name Hne. rewrite filter_rows_get_col.
    by rewrite (get_col_set_col_other "tokens" name _ _ _ ltac:(congruence) Hset).
Qed.

Lemma kept_rows_have_token (review : list cell) :
  Forall (fun c => clean_text c <> []) (mask_list (List.map has_token review) review).
Proof.
  apply mask_list_Forall. intros c. unfold TopicModeling.has_token.
  by destruct (clean_text c).
Qed.

Lemma mapM_cell_tokens_Some (l : list cell) (docs : list (list string)) :
  mapM cell_tokens l = Some docs -> l = List.map Toks docs.
Proof.
  revert docs. induction l as [|c l IH]; intros docs H.
  - by injection H as <-.
  - simpl in H. apply bind_Some in H as (d & Hd & H).
    apply bind_Some in H as (ds & Hds & H). injection H as <-.
    destruct c; try discriminate. injection Hd as ->.
    simpl. by rewrite <- (IH ds).
Qed.

Lemma create_bigrams_trigrams_adds df df' :
  create_bigrams_trigrams df = Some df' ->
  frame_adds ["tokens_with_phrases"] df df'.
Proof.
  unfold TopicModeling.create_bigrams_trigrams. intros H.
  apply bind_Some in H as (tokens & _ & H).
  apply bind_Some in H as (sentences & _ & H).
  by eapply frame_adds_set_col.
Qed.

Lemma extract_tfidf_keywords_adds df df' kw :
  extract_tfidf_keywords df = Some (df', kw) ->
  frame_adds ["processed_text"] df df'.
Proof.
  unfold TopicModeling.extract_tfidf_keywords. intros H.
  apply bind_Some in H as (phrases & _ & H).
  apply bind_Some in H as (docs & _ & H).
  apply bind_Some in H as (df1 & Hset & H).
  apply bind_Some in H as (texts & _ & H).
  apply bind_Some in H as (banks & _ & H).
  apply bind_Some in H as (k & _ & H).
  injection H as <- <-. by eapply frame_adds_set_col.
Qed.

Lemma perform_nmf_topic_modeling_adds df df' n_topics n_words topics :
  perform_nmf_topic_modeling df n_topics n_words = Some (df', topics) ->
  frame_adds ["processed_text"] df df'.
Proof.
  unfold TopicModeling.perform_nmf_topic_modeling. intros H.
  apply bind_Some in H as (phrases & _ & H).
  apply bind_Some in H as (docs & _ & H).
  apply bind_Some in H as (df1 & Hset & H).
  apply bind_Some in H as (texts & _ & H).
  apply bind_Some in H as (k & _ & H).
  injection H as <- <-. by eapply frame_adds_set_col.
Qed.

(** What [perform_lda_topic_modeling] does to the frame: the column
    [lda_topic] holds, row by row, the dominant topic of the row's bag of
    words under the trained model. *)
Lemma perform_lda_topic_modeling_Some df df' n_topics n_words topics :
  perform_lda_topic_modeling df n_topics n_words = Some (topics, df') ->
  exists documents model,
    get_col "tokens_with_phrases" df = Some (List.map Toks documents)
    /\ lda_train (List.map (doc2bow documents) documents) n_topics = Some model
    /\ get_col "lda_topic" df'
       = Some (List.map
                 (fun doc => Int (dominant_topic
                                    (get_document_topics model (doc2bow documents doc))))
                 documents)
    /\ frame_adds ["lda_topic"] df df'.
Proof.
  unfold TopicModeling.perform_lda_topic_modeling. intros H.
  apply bind_Some in H as (phrases & Hp & H).
  apply bind_Some in H as (documents & Hd & H).
  apply bind_Some in H as (model & Hm & H).
  apply bind_Some in H as (df1 & Hset & H).
  injection H as <- <-.
  apply mapM_cell_tokens_Some in Hd as ->.
  exists documents, model. split; [done|]. split; [done|]. split.
  - rewrite (get_col_set_col_same _ _ _ _ Hset).
    by rewrite !List.map_map.
  - by eapply frame_adds_set_col.
Qed.

Lemma save_lda_assignments_Some df out :
  save_lda_assignments df = Some out ->
  exists lda_df,
    out = to_csv lda_df
    /\ columns lda_df = ["review"; "bank"; "rating"; "lda_topic"]
    /\ index lda_df = index df
    /\ forall name, name ∈ ["review"; "bank"; "rating"; "lda_topic"] ->
         get_col name lda_df = get_col name df.
Proof.
  unfold TopicModeling.save_lda_assignments. intros H.
  apply bind_Some in H as (lda_df & Hsel & H). injection H as <-.
  exists lda_df. split; [done|]. by apply select_cols_Some.
Qed.

(** [max] returns an item of the list, and no item has a greater key. *)
Lemma max_by_spec {A} (key : A -> Q) (best : A) (l : list A) :
  In (Py.max_by key best l) (best :: l)
  /\ forall x, In x (best :: l) -> (key x <= key (Py.max_by key best l))%Q.
Proof.
  revert best. induction l as [|y l IH]; intros best; simpl.
  - split; [by left|]. intros x [<-|[]]. apply Qle_refl.
  - destruct (Qlt_le_dec (key best) (key y)) as [Hlt|Hle].
    + destruct (IH y) as [Hin Hmax]. split.
      * right. exact Hin.
      * intros x [<-|Hx]; [|by apply Hmax].
        eapply Qle_trans; [apply Qlt_le_weak, Hlt|]. apply Hmax. by left.
    + destruct (IH best) as [Hin Hmax]. split.
      * destruct Hin as [<-|Hin]; [by left|]. right. by right.
      * intros x [<-|[<-|Hx]].
        -- apply Hmax. by left.
        -- eapply Qle_trans; [exact Hle|]. apply Hmax. by left.
        -- apply Hmax. by right.
Qed.

Lemma dominant_topic_empty : dominant_topic [] = (-1)%Z.
Proof. reflexivity. Qed.

Lemma dominant_topic_maximal (dist : list (Z * Q)) :
  dist <> [] ->
  exists p, In (dominant_topic dist, p) dist
            /\ forall t q, In (t, q) dist -> (q <= p)%Q.
Proof.
  destruct dist as [|x r]; [done|]. intros _. simpl.
  destruct (max_by_spec snd x r) as [Hin Hmax].
  exists (snd (Py.max_by snd x r)). split.
  - by rewrite <- surjective_pairing.
  - intros t q Htq. apply (Hmax (t, q) Htq).
Qed.

(** What [main] computes, step by step. *)
Lemma main_Some loaded fitted out :
  main loaded = Some (fitted, out) ->
  exists pre documents model lda_df,
    preprocess_text loaded = Some pre
    /\ frame_adds ["tokens_with_phrases"; "processed_text"] pre fitted
    /\ get_col "tokens_with_phrases" fitted = Some (List.map Toks documents)
    /\ lda_train (List.map (doc2bow documents) documents) 5 = Some model
    /\ out = to_csv lda_df
    /\ columns lda_df = ["review"; "bank"; "rating"; "lda_topic"]
    /\ index lda_df = index pre
    /\ get_col "review" lda_df = get_col "review" pre
    /\ get_col "bank" lda_df = get_col "bank" pre
    /\ get_col "rating" lda_df = get_col "rating" pre
    /\ get_col "lda_topic" lda_df
       = Some (List.map
                 (fun doc => Int (dominant_topic
                                    (get_document_topics model (doc2bow documents doc))))
                 documents).
Proof.
  unfold TopicModeling.main. intros H.
  apply bind_Some in H as (pre & Hpre & H).
  apply bind_Some in H as (df1 & H1 & H).
  apply bind_Some in H as ([df2 kw] & H2 & H).
  apply bind_Some in H as ([topics df3] & H3 & H).
  apply bind_Some in H as ([df4 nmf] & H4 & H).
  apply bind_Some in H as (csv_out & H5 & H).
  injection H as <- <-.
  apply create_bigrams_trigrams_adds in H1.
  apply extract_tfidf_keywords_adds in H2.
  pose proof (frame_adds_trans _ _ _ _ _ H1 H2) as H12. simpl in H12.
  apply perform_lda_topic_modeling_Some in H3
    as (documents & model & Hdocs & Hmodel & Htopic & [Hi3 Hc3]).
  apply perform_nmf_topic_modeling_adds in H4 as [Hi4 Hc4].
  apply save_lda_assignments_Some in H5 as (lda_df & -> & Hcols & Hidx & Hcol).
  destruct H12 as [Hi12 Hc12].
  assert (forall name, name ∈ ["review"; "bank"; "rating"] ->
            get_col name lda_df = get_col name pre) as Hkeep.
  { intros name Hn. apply list_elem_of_In in Hn. simpl in Hn.
    destruct Hn as [<-|[<-|[<-|[]]]];
      (rewrite Hcol by in_cols; rewrite Hc4, Hc3, Hc12 by notin_cols; done). }
  exists pre, documents, model, lda_df.
  split; [done|]. split; [by split|]. split; [done|]. split; [done|].
  split; [done|]. split; [done|]. split; [congruence|].
  split; [apply Hkeep; in_cols|]. split; [apply Hkeep; in_cols|].
  split; [apply Hkeep; in_cols|].
  rewrite Hcol by in_cols. rewrite Hc4 by notin_cols. done.
Qed.

(** C1 (as amended).  A null review gives no token.  For any other review
    the text handed to the tokenizer holds only letters a-z and whitespace,
    and the tokens returned are the lemmas of those words of the tokenizer
    that are no stop word (NLTK's list or the custom one, which holds 'app',
    'bank', 'banking', 'good', 'bad') and have three or more characters: the
    filter runs before the lemmatizer.  The frame every later step of [main]
    works on, the topic models included, holds exactly the rows of the input
    whose token list is not empty, in order. *)
Theorem preprocess_text_tokens :
  clean_text Null = []
  /\ Forall (fun w => w ∈ stop_words) ["app"; "bank"; "banking"; "good"; "bad"]
  /\ (forall text, isnull text = false ->
        Py.all_chars (fun c => Py.is_az c || Py.isspace c)
          (normalize (str_of text)) = true
        /\ clean_text text
           = List.map lemmatize
               (List.filter keep_word (word_tokenize (normalize (str_of text))))
        /\ Forall (fun w => (w ∉ stop_words) /\ 3 <= Py.len w)
             (List.filter keep_word (word_tokenize (normalize (str_of text)))))
  /\ (forall loaded fitted out, main loaded = Some (fitted, out) ->
        exists review,
          get_col "review" loaded = Some review
          /\ index fitted = mask_list (List.map has_token review) (index loaded)
          /\ get_col "tokens" fitted
             = Some (List.map (fun c => Toks (clean_text c))
                       (mask_list (List.map has_token review) review))
          /\ Forall (fun c => clean_text c <> [])
               (mask_list (List.map has_token review) review)).
Proof.
  split; [apply clean_text_null|]. split.
  { repeat apply List.Forall_cons; try apply List.Forall_nil;
      apply elem_of_union_r; apply (bool_decide_unpack _); vm_compute; exact I. }
  split.
  - intros text Hnull. split; [apply sub_nonletters_chars|].
    split; [by apply clean_text_not_null|apply kept_words_pass].
  - intros loaded fitted out H.
    apply main_Some in H as (pre & _ & _ & _ & Hpre & [Hi Hc] & _).
    apply preprocess_text_Some in Hpre as (review & Hr & Hidx & _ & Htok & _).
    exists review. split; [done|]. split; [congruence|].
    split; [|apply kept_rows_have_token].
    rewrite Hc by notin_cols. done.
Qed.

(** C2.  After [perform_lda_topic_modeling] with five topics, the column
    [lda_topic] holds for every document the dominant topic of its
    distribution under the trained model: -1 when the distribution is empty,
    otherwise the id of a pair of the distribution whose probability no
    other pair exceeds; as gensim numbers its topics 0..4, every value is
    one of -1, 0, 1, 2, 3, 4. *)
Theorem lda_topic_is_dominant_topic df n_words topics df' :
  perform_lda_topic_modeling df 5 n_words = Some (topics, df') ->
  (forall model doc_bow,
     Forall (fun tp => (0 <= fst tp < 5)%Z) (get_document_topics model doc_bow)) ->
  exists documents model,
    get_col "tokens_with_phrases" df = Some (List.map Toks documents)
    /\ lda_train (List.map (doc2bow documents) documents) 5 = Some model
    /\ get_col "lda_topic" df'
       = Some (List.map
                 (fun doc => Int (dominant_topic
                                    (get_document_topics model (doc2bow documents doc))))
                 documents)
    /\ forall doc,
         let topic_dist := get_document_topics model (doc2bow documents doc) in
         (topic_dist = [] -> dominant_topic topic_dist = (-1)%Z)
         /\ (topic_dist <> [] ->
             exists p, In (dominant_topic topic_dist, p) topic_dist
                       /\ forall t q, In (t, q) topic_dist -> (q <= p)%Q)
         /\ In (dominant_topic topic_dist) [-1; 0; 1; 2; 3; 4]%Z.
Proof.
  intros H Hids.
  apply perform_lda_topic_modeling_Some in H
    as (documents & model & Hdocs & Hmodel & Htopic & _).
  exists documents, model. split; [done|]. split; [done|]. split; [done|].
  intros doc topic_dist. split; [by intros ->|].
  split; [apply dominant_topic_maximal|].
  destruct topic_dist as [|x r] eqn:E; [simpl; auto|].
  destruct (dominant_topic_maximal (x :: r)) as (p & Hin & _); [done|].
  specialize (Hids model (doc2bow documents doc)).
  fold topic_dist in Hids. rewrite E in Hids.
  rewrite List.Forall_forall in Hids. specialize (Hids _ Hin). simpl in Hids.
  simpl. lia.
Qed.

(** C10.  The file of LDA assignments has exactly the columns review, bank,
    rating, lda_topic; its rows are the rows of the input whose review has a
    token left, in order and with the review, bank and rating of the input,
    so it never has more rows than the input (and has fewer as soon as one
    review loses all its tokens). *)
Theorem lda_assignments_rows loaded fitted out :
  main loaded = Some (fitted, out) ->
  exists review lda_df topics,
    get_col "review" loaded = Some review
    /\ out = to_csv lda_df
    /\ header out = ["review"; "bank"; "rating"; "lda_topic"]
    /\ index lda_df = mask_list (List.map has_token review) (index loaded)
    /\ get_col "review" lda_df = Some (mask_list (List.map has_token review) review)
    /\ get_col "bank" lda_df
       = mask_list (List.map has_token review) <$> get_col "bank" loaded
    /\ get_col "rating" lda_df
       = mask_list (List.map has_token review) <$> get_col "rating" loaded
    /\ get_col "lda_topic" lda_df = Some (List.map Int topics)
    /\ Forall (fun c => clean_text c <> [])
         (mask_list (List.map has_token review) review)
    /\ length (lines out) = length (List.filter has_token review)
    /\ length (lines out) <= nrows loaded.
Proof.
  intros H.
  apply main_Some in H
    as (pre & documents & model & lda_df & Hpre & _ & _ & _ & -> & Hcols & Hidx
        & Hrev & Hbank & Hrating & Htopic).
  apply preprocess_text_Some in Hpre as (review & Hr & Hi & Hreview & _ & Hother).
  exists review, lda_df, (List.map
    (fun doc => dominant_topic (get_document_topics model (doc2bow documents doc)))
    documents).
  assert (length (lines (to_csv lda_df))
          = length (mask_list (List.map has_token review) review)) as Hlen.
  { simpl. rewrite length_map.
    change (length (rows lda_df)) with (nrows lda_df).
    rewrite <- (get_col_length "review" lda_df _ (eq_trans Hrev Hreview)). done. }
  split; [done|]. split; [done|]. split; [done|]. split; [congruence|].
  split; [congruence|].
  split; [rewrite Hbank; apply Hother; discriminate|].
  split; [rewrite Hrating; apply Hother; discriminate|].
  split; [by rewrite Htopic, List.map_map|].
  split; [apply kept_rows_have_token|].
  split.
  - rewrite Hlen. clear. induction review as [|c review IH]; [done|].
    simpl. destruct (has_token c); simpl; by rewrite IH.
  - rewrite Hlen. etrans; [apply mask_list_length_le|].
    by rewrite (get_col_length _ _ _ Hr).
Qed.

End TopicModelingFacts.

(** *** The topic-modelling properties on the sample input *)

(** C1 as stated fails: the lemma of a kept word can be a stop word.
    'banks' passes the filter and is lemmatized to 'bank', which the custom
    list holds. *)
Lemma lemma_can_be_stop_word :
  Samples.clean_text (Pandas.Str "Banks closed early") = ["bank"; "closed"; "early"]
  /\ forallb (TopicModeling.plain_token Samples.nltk_english)
       (Samples.clean_text (Pandas.Str "Banks closed early")) = false.
Proof. split; vm_compute; reflexivity. Qed.

Lemma preprocess_text_tokens_witness :
  exists fitted out,
    Samples.run_topic_modeling Samples.sentiment_results = Some (fitted, out)
    /\ Pandas.index fitted = [0; 3]
    /\ Pandas.get_col "tokens" fitted
       = Some [Pandas.Toks ["great"; "transfer"; "speed"]; Pandas.Toks ["crash"; "see"]].
Proof.
  assert (exists fitted out,
            Samples.run_topic_modeling Samples.sentiment_results = Some (fitted, out))
    as (fitted & out & H) by (eexists _, _; vm_compute; reflexivity).
  exists fitted, out. split; [exact H|].
  destruct (preprocess_text_tokens Samples.nltk_english Samples.word_tokenize
              Samples.lemmatize Samples.py_str Samples.apply_phrases unit unit
              Samples.tfidf_keywords Samples.nmf_fit (list string) unit unit
              Samples.doc2bow Samples.lda_train Samples.show_topic
              Samples.get_document_topics)
    as (_ & _ & _ & Hmain).
  destruct (Hmain _ _ _ H) as (review & Hr & Hi & Ht & _).
  vm_compute in Hr. injection Hr as <-.
  split; [rewrite Hi|rewrite Ht]; vm_compute; reflexivity.
Defined.

Lemma lda_topic_is_dominant_topic_witness :
  exists topics df',
    Samples.run_lda Samples.fitted_frame = Some (topics, df')
    /\ (forall model doc_bow,
          Forall (fun tp => (0 <= fst tp < 5)%Z)
            (Samples.get_document_topics model doc_bow))
    /\ Pandas.get_col "lda_topic" df' = Some [Pandas.Int 3; Pandas.Int 3].
Proof.
  assert (exists topics df', Samples.run_lda Samples.fitted_frame = Some (topics, df'))
    as (topics & df' & H) by (eexists _, _; vm_compute; reflexivity).
  assert (forall (model : unit) (doc_bow : list string),
            Forall (fun tp => (0 <= fst tp < 5)%Z)
              (Samples.get_document_topics model doc_bow)) as Hids.
  { intros model [|w doc_bow]; simpl; repeat constructor; simpl; lia. }
  exists topics, df'. split; [exact H|]. split; [exact Hids|].
  destruct (lda_topic_is_dominant_topic (list string) unit unit Samples.doc2bow
              Samples.lda_train Samples.show_topic Samples.get_document_topics
              _ _ _ _ H Hids)
    as (documents & model & Hd & _ & Ht & _).
  vm_compute in Hd. injection Hd as Hd.
  assert (documents = [["great"; "transfer"; "speed"]; ["crash"; "see"]]) as ->.
  { destruct documents as [|d1 [|d2 [|d3 ds]]]; try discriminate.
    by injection Hd as -> ->. }
  rewrite Ht. vm_compute. reflexivity.
Defined.

Lemma lda_assignments_rows_witness :
  exists fitted out,
    Samples.run_topic_modeling Samples.sentiment_results = Some (fitted, out)
    /\ Pandas.header out = ["review"; "bank"; "rating"; "lda_topic"]
    /\ length (Pandas.lines out) = 2
    /\ Pandas.nrows Samples.sentiment_results = 4.
Proof.
  assert (exists fitted out,
            Samples.run_topic_modeling Samples.sentiment_results = Some (fitted, out))
    as (fitted & out & H) by (eexists _, _; vm_compute; reflexivity).
  exists fitted, out. split; [exact H|].
  destruct (lda_assignments_rows Samples.nltk_english Samples.word_tokenize
              Samples.lemmatize Samples.py_str Samples.apply_phrases unit unit
              Samples.tfidf_keywords Samples.nmf_fit (list string) unit unit
              Samples.doc2bow Samples.lda_train Samples.show_topic
              Samples.get_document_topics _ _ _ H)
    as (review & lda_df & topics & Hr & _ & Hh & _ & _ & _ & _ & _ & _ & Hlen & _).
  vm_compute in Hr. injection Hr as <-.
  split; [exact Hh|]. split; [rewrite Hlen; vm_compute; reflexivity|reflexivity].
Defined.

(** ** The master script *)

Section RunTask2Facts.
Import RunTask2Analysis.

Context (module_returns : string -> bool) (clean_csv_exists : bool).

Local Abbreviation main := (RunTask2Analysis.main module_returns clean_csv_exists).

(** C3.  A run starts the modules in the order sentiment analysis, topic
    modelling, visualizations, report generation, each after the previous
    one has ended, and stops after the first of the first two that fails:
    topic modelling starts only after sentiment analysis has completed, the
    exit status is 1 when sentiment analysis or topic modelling fails, and
    once those two have completed the report generation is started whether
    or not the visualizations failed. *)
Theorem pipeline_runs_in_order :
  (exists n,
     fst main
     = events_of (List.map (fun m => (m, module_returns m)) (firstn n pipeline)))
  /\ (In (Started "topic_modeling") (fst main) ->
      In (Completed "sentiment_analysis") (fst main)
      /\ ~ In (Failed "sentiment_analysis") (fst main))
  /\ (module_returns "sentiment_analysis" = false
      \/ module_returns "topic_modeling" = false -> snd main = 1%Z)
  /\ (snd main = 0%Z <->
      clean_csv_exists = true /\ module_returns "sentiment_analysis" = true
      /\ module_returns "topic_modeling" = true)
  /\ (clean_csv_exists = true -> module_returns "sentiment_analysis" = true ->
      module_returns "topic_modeling" = true ->
      started (fst main) = pipeline
      /\ In (Started "generate_report") (fst main)).
Proof.
  unfold RunTask2Analysis.main, check_prerequisites, run_module. simpl.
  destruct clean_csv_exists; simpl.
  2: { split; [by exists 0|]. split; [done|]. split; [done|].
       split; [|done]. split; [done|]. by intros (? & _). }
  destruct (module_returns "sentiment_analysis") eqn:Hs; simpl.
  2: { split; [exists 1; simpl; by rewrite Hs|].
       split; [intros [|[|[]]]; discriminate|]. split; [done|].
       split; [|done]. split; [done|]. by intros (_ & ? & _). }
  destruct (module_returns "topic_modeling") eqn:Ht; simpl.
  2: { split; [exists 2; simpl; by rewrite Hs, Ht|].
       split.
       { intros _. split; [auto|]. intros [|[|[|[|[]]]]]; discriminate. }
       split; [done|]. split; [|done]. split; [done|]. by intros (_ & _ & ?). }
  destruct (module_returns "visualizations") eqn:Hv;
    destruct (module_returns "generate_report") eqn:Hr; simpl;
    (split; [exists 4; simpl; by rewrite Hs, Ht, Hv, Hr|]);
    (split; [intros _; split; [auto|];
             intros H; repeat (destruct H as [H|H]; [discriminate H|]); done|]);
    (split; [by intros [|]|]);
    (split; [done|]);
    intros _ _ _; (split; [reflexivity|auto 10]).
Qed.

End RunTask2Facts.

(** When only the visualizations fail, all four modules are started and the
    status is 0. *)
Lemma pipeline_runs_in_order_witness :
  RunTask2Analysis.started
    (fst (RunTask2Analysis.main Samples.only_visualizations_fail true))
  = RunTask2Analysis.pipeline
  /\ In (RunTask2Analysis.Failed "visualizations")
       (fst (RunTask2Analysis.main Samples.only_visualizations_fail true))
  /\ snd (RunTask2Analysis.main Samples.only_visualizations_fail true) = 0%Z.
Proof.
  destruct (pipeline_runs_in_order Samples.only_visualizations_fail true)
    as (_ & _ & _ & Hstatus & Hreport).
  split; [apply Hreport; reflexivity|].
  split; [vm_compute; auto 10|].
  apply Hstatus. repeat split.
Defined.

(** ** Sentiment analysis *)

Section PandasColumns.
Import Pandas.

Lemma set_col_columns_fresh name vals df df' :
  name ∉ columns df ->
  set_col name vals df = Some df' -> columns df' = columns df ++ [name].
Proof.
  intros Hn (_ & _ & ->)%set_col_Some.
  destruct (has_col name df) eqn:E; [|done].
  by apply has_col_true in E.
Qed.

Lemma set_col_columns_app name vals df df' (base suffix : list string) :
  columns df = base ++ suffix ->
  name ∉ base -> ~ In name suffix ->
  set_col name vals df = Some df' -> columns df' = base ++ (suffix ++ [name]).
Proof.
  intros Hc Hb Hs H.
  rewrite (set_col_columns_fresh name vals df df'); [by rewrite Hc, app_assoc| |done].
  rewrite Hc. intros [?|?%list_elem_of_In]%elem_of_app; done.
Qed.

Lemma filter_ne_fresh name (cols : list string) :
  name ∉ cols ->
  List.filter (fun c => negb (String.eqb c name)) cols = cols.
Proof.
  induction cols as [|c cols IH]; [done|]. intros Hn. simpl.
  destruct (String.eqb_spec c name) as [->|_]; simpl.
  - exfalso. apply Hn. by left.
  - rewrite IH; [done|]. intros H. apply Hn. by right.
Qed.

Lemma drop_col_index name df : index (drop_col name df) = index df.
Proof. unfold index, drop_col. simpl. by rewrite List.map_map. Qed.

Lemma drop_col_get_col name other df :
  name <> other -> get_col other (drop_col name df) = get_col other df.
Proof.
  intros Hne. unfold get_col, has_col, drop_col. simpl.
  assert (bool_decide (other ∈ List.filter (fun c => negb (String.eqb c name)) (columns df))
          = bool_decide (other ∈ columns df)) as ->.
  { apply bool_decide_ext. rewrite !list_elem_of_In, filter_In.
    split; [by intros [? _]|]. intros H. split; [done|].
    apply negb_true_iff. by apply String.eqb_neq. }
  case_bool_decide; [|done]. f_equal. rewrite List.map_map.
  apply map_ext. intros r. unfold cell_at. simpl.
  by rewrite lookup_delete_ne.
Qed.

Lemma to_csv_lines_length df : length (lines (to_csv df)) = nrows df.
Proof. simpl. by rewrite length_map. Qed.

End PandasColumns.

Section SentimentFacts.
Import Pandas SentimentAnalysis.

Context (vader_compound : string -> Q) (textblob_sentiment : string -> Q * Q)
  (afinn_score : string -> Q) (py_str : cell -> string)
  (to_month : list cell -> option (list cell)) (report_ok : frame -> bool).

Local Abbreviation get_vader_scores :=
  (SentimentAnalysis.get_vader_scores vader_compound py_str).
Local Abbreviation get_textblob_scores :=
  (SentimentAnalysis.get_textblob_scores textblob_sentiment py_str).
Local Abbreviation get_afinn_score :=
  (SentimentAnalysis.get_afinn_score afinn_score py_str).
Local Abbreviation analysed :=
  (SentimentAnalysis.analysed vader_compound textblob_sentiment afinn_score
     py_str to_month report_ok).
Local Abbreviation main :=
  (SentimentAnalysis.main vader_compound textblob_sentiment afinn_score
     py_str to_month report_ok).

(** The frame [main] saves, step by step. *)
Lemma analysed_Some loaded df :
  analysed loaded = Some df ->
  exists review df1 df2 df3 df4 df5 month category,
    get_col "review" loaded = Some review
    /\ set_col "vader_compound"
         (List.map (fun c => Num (get_vader_scores c)) review) loaded = Some df1
    /\ set_col "textblob_polarity"
         (List.map (fun x => Num (fst x)) (List.map get_textblob_scores review)) df1
       = Some df2
    /\ set_col "textblob_subjectivity"
         (List.map (fun x => Num (snd x)) (List.map get_textblob_scores review)) df2
       = Some df3
    /\ set_col "afinn_score"
         (List.map (fun c => Num (get_afinn_score c)) review) df3 = Some df4
    /\ set_col "month" month df4 = Some df5
    /\ set_col "sentiment_category" category df5 = Some df.
Proof.
  unfold SentimentAnalysis.analysed. intros H.
  apply bind_Some in H as (df1 & H1 & H).
  apply bind_Some in H as (df2 & H2 & H).
  apply bind_Some in H as (df3 & H3 & H).
  apply bind_Some in H as (df4 & H4 & H).
  unfold apply_vader_sentiment in H1.
  apply bind_Some in H1 as (review & Hr & H1).
  unfold apply_textblob_sentiment in H2.
  apply bind_Some in H2 as (review2 & Hr2 & H2).
  rewrite (get_col_set_col_other "vader_compound" "review" _ _ _
             ltac:(discriminate) H1), Hr in Hr2.
  injection Hr2 as <-.
  apply bind_Some in H2 as (df2' & H2 & H2').
  unfold apply_afinn_sentiment in H3.
  apply bind_Some in H3 as (review3 & Hr3 & H3).
  rewrite (get_col_set_col_other "textblob_subjectivity" "review" _ _ _
             ltac:(discriminate) H2'),
          (get_col_set_col_other "textblob_polarity" "review" _ _ _
             ltac:(discriminate) H2),
          (get_col_set_col_other "vader_compound" "review" _ _ _
             ltac:(discriminate) H1), Hr in Hr3.
  injection Hr3 as <-.
  unfold compute_aggregated_insights in H4.
  destruct (report_ok df3); [|discriminate].
  apply bind_Some in H4 as (date & _ & H4).
  apply bind_Some in H4 as (month & _ & H4).
  unfold generate_summary_statistics in H.
  destruct (report_ok df4); [|discriminate].
  apply bind_Some in H as (vader & _ & H).
  apply bind_Some in H as (category & _ & H).
  by exists review, df1, df2', df2, df3, df4, month, category.
Qed.

Lemma sentiment_main_Some loaded out :
  main loaded = Some out ->
  exists df, analysed loaded = Some df
             /\ has_col "month" df = true
             /\ out = to_csv (drop_col "month" df).
Proof.
  unfold SentimentAnalysis.main. intros H.
  apply bind_Some in H as (df & Hdf & H). injection H as <-.
  exists df. split; [done|].
  destruct (analysed_Some _ _ Hdf)
    as (review & df1 & df2 & df3 & df4 & df5 & month & category
        & _ & _ & _ & _ & _ & H5 & H6).
  assert (has_col "month" df = true) as Hm.
  { rewrite (set_col_has_col _ "month" _ _ _ H6),
            (set_col_has_col _ "month" _ _ _ H5). simpl. by rewrite orb_true_r. }
  split; [done|]. unfold save_results. by rewrite Hm.
Qed.


(** C8.  The file the sentiment stage writes has the rows of its input, as
    many and in the same order; every column other than the ones the stage
    assigns is unchanged, so review, rating, date, bank and source are;
    [month] is not written, and on an input that has none of the assigned
    columns the header is that of the input followed by vader_compound,
    textblob_polarity, textblob_subjectivity, afinn_score and
    sentiment_category. *)
Theorem sentiment_stage_frame loaded out :
  main loaded = Some out ->
  exists df_out,
    out = to_csv df_out
    /\ index df_out = index loaded
    /\ length (lines out) = nrows loaded
    /\ (forall name, (name ∉ sentiment_columns) ->
          get_col name df_out = get_col name loaded)
    /\ Forall (fun name => get_col name df_out = get_col name loaded)
         ["review"; "rating"; "date"; "bank"; "source"]
    /\ ("month" ∉ header out)
    /\ (Forall (fun name => name ∉ columns loaded) sentiment_columns ->
        header out
        = columns loaded
          ++ ["vader_compound"; "textblob_polarity"; "textblob_subjectivity";
              "afinn_score"; "sentiment_category"]).
Proof.
  intros H. apply sentiment_main_Some in H as (df & Hdf & _ & ->).
  destruct (analysed_Some _ _ Hdf)
    as (review & df1 & df2 & df3 & df4 & df5 & month & category
        & Hr & H1 & H2 & H3 & H4 & H5 & H6).
  assert (frame_adds sentiment_columns loaded df) as [Hi Hc].
  { pose proof (frame_adds_trans _ _ _ _ _
      (frame_adds_trans _ _ _ _ _
        (frame_adds_trans _ _ _ _ _
          (frame_adds_trans _ _ _ _ _
            (frame_adds_trans _ _ _ _ _
               (frame_adds_set_col _ _ _ _ H1) (frame_adds_set_col _ _ _ _ H2))
            (frame_adds_set_col _ _ _ _ H3))
          (frame_adds_set_col _ _ _ _ H4))
        (frame_adds_set_col _ _ _ _ H5))
      (frame_adds_set_col _ _ _ _ H6)) as Hadds.
    exact Hadds. }
  assert (forall name, name ∉ sentiment_columns ->
            get_col name (drop_col "month" df) = get_col name loaded) as Hkeep.
  { intros name Hn. rewrite drop_col_get_col; [by apply Hc|].
    intros <-. apply Hn. unfold sentiment_columns. in_cols. }
  exists (drop_col "month" df). split; [done|].
  split; [by rewrite drop_col_index|].
  split.
  { rewrite to_csv_lines_length. unfold nrows, drop_col. simpl.
    rewrite length_map. change (length (rows df)) with (nrows df).
    by apply (frame_adds_nrows sentiment_columns). }
  split; [exact Hkeep|].
  split.
  { repeat apply List.Forall_cons; try apply List.Forall_nil;
      apply Hkeep; unfold sentiment_columns; notin_cols. }
  split.
  { simpl. rewrite list_elem_of_In, filter_In. intros [_ Hneq].
    by rewrite String.eqb_refl in Hneq. }
  intros Hfresh. unfold sentiment_columns in Hfresh.
  rewrite List.Forall_forall in Hfresh.
  assert (forall name, In name sentiment_columns -> name ∉ columns loaded) as Hf
    by exact Hfresh.
  pose proof (set_col_columns_app _ _ _ _ (columns loaded) []
                (eq_sym (app_nil_r _))
                (Hf "vader_compound" ltac:(simpl; auto 10))
                ltac:(simpl; intuition discriminate) H1) as C1.
  pose proof (set_col_columns_app _ _ _ _ _ _ C1
                (Hf "textblob_polarity" ltac:(simpl; auto 10))
                ltac:(simpl; intuition discriminate) H2) as C2.
  pose proof (set_col_columns_app _ _ _ _ _ _ C2
                (Hf "textblob_subjectivity" ltac:(simpl; auto 10))
                ltac:(simpl; intuition discriminate) H3) as C3.
  pose proof (set_col_columns_app _ _ _ _ _ _ C3
                (Hf "afinn_score" ltac:(simpl; auto 10))
                ltac:(simpl; intuition discriminate) H4) as C4.
  pose proof (set_col_columns_app _ _ _ _ _ _ C4
                (Hf "month" ltac:(simpl; auto 10))
                ltac:(simpl; intuition discriminate) H5) as C5.
  pose proof (set_col_columns_app _ _ _ _ _ _ C5
                (Hf "sentiment_category" ltac:(simpl; auto 10))
                ltac:(simpl; intuition discriminate) H6) as C6.
  simpl. rewrite C6. simpl. rewrite List.filter_app.
  rewrite filter_ne_fresh by (apply Hf; simpl; auto 10).
  reflexivity.
Qed.

End SentimentFacts.

(** *** The sentiment properties on the sample input *)


Lemma sentiment_stage_frame_witness :
  exists out,
    Samples.run_sentiment_analysis Samples.sentiment_results = Some out
    /\ length (Pandas.lines out) = 4
    /\ Pandas.header out
       = ["review"; "rating"; "date"; "bank"; "source"; "vader_compound";
          "textblob_polarity"; "textblob_subjectivity"; "afinn_score";
          "sentiment_category"].
Proof.
  assert (exists out,
            Samples.run_sentiment_analysis Samples.sentiment_results = Some out)
    as (out & H) by (eexists; vm_compute; reflexivity).
  exists out. split; [exact H|].
  destruct (sentiment_stage_frame Samples.vader_compound Samples.textblob_sentiment
              Samples.afinn_score Samples.py_str Samples.to_month Samples.report_ok
              _ _ H)
    as (df_out & _ & _ & Hlen & _ & _ & _ & Hheader).
  split; [exact Hlen|].
  apply Hheader.
  repeat apply List.Forall_cons; try apply List.Forall_nil;
    rewrite list_elem_of_In; simpl; intuition discriminate.
Defined.

(** ** The scraping loop *)

Section ScrapeFacts.
Import ScrapeReviews.

Context (review token : Type)
  (reviews : nat -> nat -> option token -> response review token).

Local Abbreviation scrape_loop := (ScrapeReviews.scrape_loop review token reviews).
Local Abbreviation scrape_app_reviews :=
  (ScrapeReviews.scrape_app_reviews review token reviews).

(** The loop ends within as many iterations as reviews are missing. *)
Lemma scrape_loop_terminates fuel count calls all_reviews tok requested :
  count - length all_reviews <= fuel ->
  is_Some (scrape_loop fuel count calls all_reviews tok requested).
Proof.
  revert calls all_reviews tok requested.
  induction fuel as [|fuel IH]; intros calls all_reviews tok requested Hfuel; simpl.
  - destruct (count <=? length all_reviews) eqn:E; [eauto|].
    apply Nat.leb_gt in E. lia.
  - destruct (count <=? length all_reviews) eqn:E; [eauto|].
    apply Nat.leb_gt in E.
    destruct (reviews calls _ tok) as [|[|r result] [t|]]; eauto.
    apply IH. rewrite length_app. simpl. lia.
Qed.

(** More fuel than needed changes nothing. *)
Lemma scrape_loop_fuel fuel fuel' count calls all_reviews tok requested r :
  scrape_loop fuel count calls all_reviews tok requested = Some r ->
  fuel <= fuel' ->
  scrape_loop fuel' count calls all_reviews tok requested = Some r.
Proof.
  revert fuel' calls all_reviews tok requested.
  induction fuel as [|fuel IH]; intros fuel' calls all_reviews tok requested H Hle.
  - simpl in H. destruct fuel'; simpl;
      destruct (count <=? length all_reviews); done.
  - destruct fuel' as [|fuel']; [lia|]. simpl in *.
    destruct (count <=? length all_reviews); [done|].
    destruct (reviews calls _ tok) as [|[|x result] [t|]]; try done.
    apply IH; [done|lia].
Qed.

(** Every call asks for between 1 and 200 reviews, and for no more than
    are missing. *)
Lemma scrape_loop_requests fuel count calls all_reviews tok requested r :
  scrape_loop fuel count calls all_reviews tok requested = Some r ->
  Forall (fun k => 1 <= k <= 200) requested ->
  Forall (fun k => 1 <= k <= 200) (snd r).
Proof.
  revert calls all_reviews tok requested.
  induction fuel as [|fuel IH]; intros calls all_reviews tok requested H Hreq;
    simpl in H.
  - destruct (count <=? length all_reviews); [|done]. by injection H as <-.
  - destruct (count <=? length all_reviews) eqn:E; [by injection H as <-|].
    apply Nat.leb_gt in E.
    assert (Forall (fun k => 1 <= k <= 200)
              (requested ++ [Nat.min 200 (count - length all_reviews)])) as Hreq'.
    { apply Forall_app. split; [done|]. constructor; [lia|constructor]. }
    destruct (reviews calls _ tok) as [|[|x result] [t|]];
      try (by injection H as <-).
    by eapply IH.
Qed.

(** With an API that returns no more than it is asked for, the collection
    never grows beyond the target. *)
Lemma scrape_loop_within_target fuel count calls all_reviews tok requested r :
  (forall n k t result t',
     reviews n k t = Returned review token result t' -> length result <= k) ->
  scrape_loop fuel count calls all_reviews tok requested = Some r ->
  length all_reviews <= count ->
  length (fst r) <= count.
Proof.
  intros Hapi. revert calls all_reviews tok requested.
  induction fuel as [|fuel IH]; intros calls all_reviews tok requested H Hlen;
    simpl in H.
  - destruct (count <=? length all_reviews); [|done]. by injection H as <-.
  - destruct (count <=? length all_reviews) eqn:E; [by injection H as <-|].
    apply Nat.leb_gt in E.
    destruct (reviews calls _ tok) as [|result t] eqn:Hcall;
      [by injection H as <-|].
    assert (length result <= Nat.min 200 (count - length all_reviews)) as Hk
      by exact (Hapi _ _ _ _ _ Hcall).
    destruct result as [|x result]; [by injection H as <-|].
    assert (length (all_reviews ++ x :: result) <= count) as Hlen'
      by (rewrite length_app; lia).
    destruct t as [t|]; [by eapply IH|by injection H as <-].
Qed.

(** Whatever the API returns, the collection was below the target before
    the last batch was added. *)
Lemma scrape_loop_last_batch fuel count calls all_reviews tok requested r :
  scrape_loop fuel count calls all_reviews tok requested = Some r ->
  fst r = all_reviews
  \/ exists before batch, fst r = before ++ batch /\ length before < count.
Proof.
  revert calls all_reviews tok requested.
  induction fuel as [|fuel IH]; intros calls all_reviews tok requested H;
    simpl in H.
  - destruct (count <=? length all_reviews); [|done]. injection H as <-. by left.
  - destruct (count <=? length all_reviews) eqn:E; [injection H as <-; by left|].
    apply Nat.leb_gt in E.
    destruct (reviews calls _ tok) as [|[|x result] [t|]];
      try (injection H as <-; by left).
    + apply IH in H as [->|H]; [|by right].
      right. by exists all_reviews, (x :: result).
    + injection H as <-. right. by exists all_reviews, (x :: result).
Qed.


End ScrapeFacts.



(** ** Loading the database *)

Section PostgresFacts.
Import Pandas InsertIntoPostgres.

Context (db date : Type)
  (insert_bank : db -> cell -> cell -> option (db * Z))
  (insert_review : db -> review_tuple date -> option db)
  (commit_ok : db -> bool)
  (to_date : cell -> option date) (today : date)
  (int_of_str : string -> option Z).

Local Abbreviation connection := (InsertIntoPostgres.connection db).
Local Abbreviation insert_each_bank := (InsertIntoPostgres.insert_each_bank db insert_bank).
Local Abbreviation execute_batch := (InsertIntoPostgres.execute_batch db date insert_review).
Local Abbreviation commit := (InsertIntoPostgres.commit db commit_ok).
Local Abbreviation insert_banks := (InsertIntoPostgres.insert_banks db insert_bank commit_ok).
Local Abbreviation insert_reviews :=
  (InsertIntoPostgres.insert_reviews db date insert_review commit_ok to_date today
     int_of_str).
Local Abbreviation prepare_row :=
  (InsertIntoPostgres.prepare_row date to_date today int_of_str).
Local Abbreviation prepare_rows :=
  (InsertIntoPostgres.prepare_rows date to_date today int_of_str).
Local Abbreviation parse_review_date :=
  (InsertIntoPostgres.parse_review_date date to_date today).

(** Statements touch the open transaction only. *)
Lemma insert_each_bank_frame unique_banks (c : connection) bank_mapping :
  committed db (fst (insert_each_bank unique_banks c bank_mapping)) = committed db c
  /\ history db (fst (insert_each_bank unique_banks c bank_mapping)) = history db c.
Proof.
  revert c bank_mapping. induction unique_banks as [|b rest IH]; intros c m; simpl.
  - done.
  - destruct (insert_bank (working db c) b b) as [[w id]|]; [|done].
    destruct (IH (execute db c w) (dict_set b id m)) as [-> ->]. done.
Qed.

Lemma execute_batch_frame review_data (c : connection) :
  committed db (fst (execute_batch review_data c)) = committed db c
  /\ history db (fst (execute_batch review_data c)) = history db c.
Proof.
  revert c. induction review_data as [|t rest IH]; intros c; simpl.
  - done.
  - destruct (insert_review (working db c) t) as [w|]; [|done].
    destruct (IH (execute db c w)) as [-> ->]. done.
Qed.

Lemma commit_Some (c c' : connection) :
  commit c = Some c' ->
  history db c' = history db c ++ [Commit]
  /\ committed db c' = working db c /\ working db c' = working db c.
Proof.
  unfold InsertIntoPostgres.commit. destruct (commit_ok (working db c)); [|done].
  by intros [= <-].
Qed.


Lemma row_get_Some df name r c :
  row_get df name r = Some c -> c = cell_at name r.
Proof. unfold row_get. destruct (has_col name df); by intros [= <-]. Qed.

Lemma parse_review_date_fallback df r :
  to_date (cell_at "date" r) = None -> parse_review_date df r = today.
Proof.
  intros H. unfold InsertIntoPostgres.parse_review_date, row_get.
  destruct (has_col "date" df); [|done]. by rewrite H.
Qed.

(** The tuples prepared are those of the rows whose bank the mapping
    knows, in order. *)
Lemma prepare_rows_Some df bank_mapping rs review_data :
  prepare_rows df bank_mapping rs = Some review_data ->
  Forall2
    (fun r t =>
       dict_get (cell_at "bank" r) bank_mapping = Some (bank_id date t)
       /\ review_text date t = cell_at "review" r
       /\ source date t = cell_at "source" r
       /\ review_date date t = parse_review_date df r)
    (List.filter (bank_known bank_mapping) rs) review_data.
Proof.
  revert review_data. induction rs as [|r rs IH]; intros data H; simpl in H.
  - injection H as <-. constructor.
  - apply bind_Some in H as (t & Ht & H).
    apply bind_Some in H as (rest & Hrest & H). injection H as <-.
    specialize (IH _ Hrest). simpl.
    unfold InsertIntoPostgres.prepare_row in Ht.
    apply bind_Some in Ht as (bank & Hbank & Ht).
    apply row_get_Some in Hbank as ->.
    unfold bank_known.
    destruct (dict_get (cell_at "bank" r) bank_mapping) as [id|] eqn:Hid.
    + apply bind_Some in Ht as (text & Htext & Ht).
      apply bind_Some in Ht as (rc & _ & Ht).
      apply bind_Some in Ht as (stars & _ & Ht).
      apply bind_Some in Ht as (src & Hsrc & Ht).
      injection Ht as <-.
      apply row_get_Some in Htext as ->. apply row_get_Some in Hsrc as ->.
      constructor; [|exact IH]. by simpl.
    + injection Ht as <-. exact IH.
Qed.


End PostgresFacts.

(** *** The database properties on the sample input *)



(** ** Cleaning *)

Section PandasRows.
Import Pandas.

Lemma mask_list_Forall_sub {A} (P : A -> Prop) mask (l : list A) :
  Forall P l -> Forall P (mask_list mask l).
Proof.
  intros H. revert mask. induction H as [|x l Hx Hl IH]; intros [|b mask];
    simpl; try constructor.
  destruct b; [constructor; auto|auto].
Qed.

Lemma dropna_Some name df df' :
  dropna name df = Some df' ->
  exists col,
    get_col name df = Some col
    /\ df' = filter_rows (List.map (fun c => negb (isnull c)) col) df.
Proof.
  unfold dropna. intros H. apply bind_Some in H as (col & Hc & H).
  injection H as <-. by exists col.
Qed.

Lemma dropna_not_null name df df' col :
  dropna name df = Some df' -> get_col name df' = Some col ->
  Forall (fun c => isnull c = false) col.
Proof.
  intros (col0 & Hc & ->)%dropna_Some. rewrite filter_rows_get_col, Hc.
  intros [= <-]. apply mask_list_Forall. intros c. by destruct (isnull c).
Qed.

Lemma rename_col_index old new df : index (rename_col old new df) = index df.
Proof.
  unfold rename_col. destruct (has_col old df); [|done].
  unfold index. simpl. by rewrite List.map_map.
Qed.

Lemma rename_col_columns old new df :
  has_col old df = true ->
  columns (rename_col old new df)
  = List.map (fun c => if String.eqb c old then new else c) (columns df).
Proof. unfold rename_col. by intros ->. Qed.

Lemma rename_col_new old new df :
  has_col old df = true -> get_col new (rename_col old new df) = get_col old df.
Proof.
  intros Hold. unfold rename_col, get_col. rewrite Hold.
  assert (has_col new
            {| columns := List.map (fun c => if String.eqb c old then new else c)
                            (columns df);
               rows := List.map (fun r => (fst r, <[new := cell_at old r]> (delete old (snd r))))
                         (rows df) |} = true) as ->.
  { apply has_col_true. simpl. apply list_elem_of_In, in_map_iff.
    exists old. rewrite String.eqb_refl. split; [done|].
    by apply list_elem_of_In, has_col_true. }
  simpl. f_equal. rewrite List.map_map. apply map_ext. intros r.
  unfold cell_at at 1. simpl. by rewrite lookup_insert_eq.
Qed.

Lemma rename_col_other old new other df :
  other <> old -> other <> new ->
  get_col other (rename_col old new df) = get_col other df.
Proof.
  intros Ho Hn. unfold rename_col.
  destruct (has_col old df) eqn:Hold; [|done].
  unfold get_col, has_col. simpl.
  assert (bool_decide (other ∈ List.map (fun c => if String.eqb c old then new else c)
                                 (columns df))
          = bool_decide (other ∈ columns df)) as ->.
  { apply bool_decide_ext. rewrite !list_elem_of_In, in_map_iff. split.
    - intros (c & Hc & Hin). destruct (String.eqb_spec c old); congruence.
    - intros Hin. exists other. split; [|done].
      by destruct (String.eqb_spec other old). }
  case_bool_decide; [|done]. f_equal. rewrite List.map_map.
  apply map_ext. intros r. unfold cell_at. simpl.
  rewrite lookup_insert_ne by done. by rewrite lookup_delete_ne.
Qed.

Lemma get_col_has_col name df col : get_col name df = Some col -> has_col name df = true.
Proof. unfold get_col. by destruct (has_col name df). Qed.

Lemma count_true_zero (l : list bool) :
  CleanReviews.count_true l = 0 -> Forall (fun b => b = false) l.
Proof.
  unfold CleanReviews.count_true. induction l as [|b l IH]; [constructor|].
  simpl. destruct b; simpl; [done|]. intros H. constructor; auto.
Qed.

(** A frame without a marked duplicate has no two rows with the same key. *)
Lemma duplicated_from_seen subset seen rs :
  Forall (fun b => b = false) (duplicated_from subset seen rs) ->
  Forall (fun r => forall k, In k seen -> key_eqb (row_key subset r) k = false) rs.
Proof.
  revert seen. induction rs as [|r rs IH]; intros seen H; [constructor|].
  simpl in H. destruct (existsb _ seen) eqn:E.
  - inversion H; discriminate.
  - inversion H as [|? ? _ Hrest]; subst. constructor.
    + intros k Hk. destruct (key_eqb (row_key subset r) k) eqn:Ek; [|done].
      assert (existsb (key_eqb (row_key subset r)) seen = true) as Habs
        by (apply existsb_exists; eauto).
      congruence.
    + eapply Forall_impl; [apply (IH _ Hrest)|]. simpl.
      intros r' Hr' k Hk. apply Hr'. by right.
Qed.

Lemma duplicated_from_distinct subset seen rs :
  Forall (fun b => b = false) (duplicated_from subset seen rs) ->
  ForallOrdPairs
    (fun r1 r2 => key_eqb (row_key subset r2) (row_key subset r1) = false) rs.
Proof.
  revert seen. induction rs as [|r rs IH]; intros seen H; [constructor|].
  simpl in H. destruct (existsb _ seen) eqn:E.
  - inversion H; discriminate.
  - inversion H as [|? ? _ Hrest]; subst. constructor.
    + eapply Forall_impl; [apply (duplicated_from_seen _ _ _ Hrest)|]. simpl.
      intros r' Hr'. apply Hr'. by left.
    + by eapply IH.
Qed.

Lemma mask_list_Forall_if {A} (P : A -> Prop) (p : A -> bool) (l : list A) :
  Forall (fun x => p x = true -> P x) l ->
  Forall P (mask_list (List.map p l) l).
Proof.
  induction 1 as [|x l Hx Hl IH]; simpl; [constructor|].
  destruct (p x) eqn:E; [constructor; auto|done].
Qed.

Lemma list_sum_zero (l : list nat) : list_sum l = 0 -> Forall (fun n => n = 0) l.
Proof.
  induction l as [|n l IH]; [constructor|]. simpl. intros H.
  constructor; [lia|apply IH; lia].
Qed.

End PandasRows.

Section CleanReviewsFacts.
Import Pandas CleanReviews.

Context (to_datetime_ymd : string -> option string) (py_str : cell -> string).

Local Abbreviation parse_date := (CleanReviews.parse_date to_datetime_ymd).
Local Abbreviation normalize_dates := (CleanReviews.normalize_dates to_datetime_ymd).
Local Abbreviation clean_review_text := (CleanReviews.clean_review_text py_str).
Local Abbreviation clean_text := (CleanReviews.clean_text py_str).
Local Abbreviation cleaned := (CleanReviews.cleaned to_datetime_ymd py_str).
Local Abbreviation main := (CleanReviews.main to_datetime_ymd py_str).

Lemma normalize_dates_Some df df' :
  normalize_dates df = Some df' ->
  exists date, get_col "date" df' = Some date
               /\ Forall (fun c => exists d, c = Str d) date.
Proof.
  unfold CleanReviews.normalize_dates. intros H.
  apply bind_Some in H as (date & _ & H).
  apply bind_Some in H as (df1 & Hset & H).
  apply dropna_Some in H as (col & Hcol & ->).
  rewrite (get_col_set_col_same _ _ _ _ Hset) in Hcol. injection Hcol as <-.
  eexists. split.
  { rewrite filter_rows_get_col, (get_col_set_col_same _ _ _ _ Hset). done. }
  apply mask_list_Forall_if. apply List.Forall_forall.
  intros c (x & <- & _)%in_map_iff. unfold CleanReviews.parse_date.
  destruct x as [|s| | |]; try done.
  destruct (to_datetime_ymd s); [eauto|done].
Qed.

Lemma clean_text_Some df df' :
  clean_text df = Some df' ->
  (exists review_text,
     get_col "review_text" df' = Some review_text
     /\ Forall (fun c => exists s, c = Str s /\ s <> "") review_text)
  /\ forall date, get_col "date" df = Some date ->
       exists mask, get_col "date" df' = Some (mask_list mask date).
Proof.
  unfold CleanReviews.clean_text. intros H.
  apply bind_Some in H as (col & _ & H).
  apply bind_Some in H as (df1 & Hset & H).
  rewrite (get_col_set_col_same _ _ _ _ Hset) in H. simpl in H.
  injection H as <-. split.
  - eexists. split.
    { rewrite filter_rows_get_col, (get_col_set_col_same _ _ _ _ Hset). done. }
    apply mask_list_Forall. intros c. unfold str_len_pos.
    destruct c as [|s| | |]; try done. intros Hlen. exists s. split; [done|].
    intros ->. discriminate.
  - intros date Hd. eexists.
    rewrite filter_rows_get_col.
    rewrite (get_col_set_col_ne _ _ _ _ _ Hset) by reflexivity.
    by rewrite Hd.
Qed.

Lemma standardize_schema_Some df df' :
  standardize_schema df = Some df' ->
  columns df' = ["review"; "rating"; "date"; "bank"; "source"]
  /\ (has_col "review_text" df = true ->
      get_col "review" df' = get_col "review_text" df)
  /\ get_col "date" df' = get_col "date" df.
Proof.
  unfold standardize_schema.
  destruct (has_col "review" df || has_col "bank" df); [done|].
  intros (Hc & _ & Hget)%select_cols_Some. split; [done|]. split.
  - intros Hrt. rewrite Hget by in_cols.
    rewrite rename_col_other by discriminate. by apply rename_col_new.
  - rewrite Hget by in_cols. by rewrite !rename_col_other by discriminate.
Qed.

(** What every cleaned frame satisfies. *)
Lemma cleaned_Some loaded df :
  cleaned loaded = Some df ->
  columns df = ["review"; "rating"; "date"; "bank"; "source"]
  /\ (exists review, get_col "review" df = Some review
                     /\ Forall (fun c => exists s, c = Str s /\ s <> "") review)
  /\ (exists date, get_col "date" df = Some date
                   /\ Forall (fun c => exists d, c = Str d) date).
Proof.
  unfold CleanReviews.cleaned. intros H.
  apply bind_Some in H as (df1 & _ & H).
  apply bind_Some in H as (df2 & _ & H).
  apply bind_Some in H as (df3 & H3 & H).
  apply bind_Some in H as (df4 & H4 & H).
  apply normalize_dates_Some in H3 as (date & Hdate & Hdates).
  apply clean_text_Some in H4 as [(review & Hreview & Hreviews) Hkeep].
  destruct (Hkeep _ Hdate) as (mask & Hdate4).
  apply standardize_schema_Some in H as (Hc & Hr & Hd).
  split; [done|]. split.
  - exists review. split; [|done]. rewrite Hr; [done|].
    by eapply get_col_has_col.
  - exists (mask_list mask date). split; [congruence|].
    by apply mask_list_Forall_sub.
Qed.

Lemma rating_in_range c :
  rating_out_of_range c = Some false -> isnull c = false ->
  exists q, cell_num c = Some q /\ (1 <= q <= 5)%Q.
Proof.
  unfold rating_out_of_range.
  destruct c as [| |z|q|]; simpl; try done; intros [= H] _;
    apply orb_false_iff in H as [H1 H2];
    apply negb_false_iff, Qle_bool_iff in H1;
    apply negb_false_iff, Qle_bool_iff in H2; eauto.
Qed.

(** What a frame satisfies when [validate_data] finds no issue. *)
Lemma validate_data_true df :
  validate_data df = Some true ->
  ForallOrdPairs
    (fun r1 r2 => key_eqb (row_key ["review"; "bank"] r2)
                    (row_key ["review"; "bank"] r1) = false) (rows df)
  /\ Forall (fun r => forall c, c ∈ columns df -> isnull (cell_at c r) = false)
       (rows df)
  /\ Forall (fun r => exists q, cell_num (cell_at "rating" r) = Some q
                                /\ (1 <= q <= 5)%Q) (rows df).
Proof.
  unfold validate_data. intros H.
  apply bind_Some in H as (dup & Hdup & H).
  apply bind_Some in H as (rating & Hrating & H).
  apply bind_Some in H as (bad & Hbad & H).
  apply bind_Some in H as (review & _ & H).
  injection H as H.
  apply andb_true_iff in H as [H _].
  apply andb_true_iff in H as [H Hmissing].
  apply andb_true_iff in H as [Hd Hr].
  apply Nat.eqb_eq in Hd, Hr, Hmissing.
  assert (Forall (fun r => forall c, c ∈ columns df -> isnull (cell_at c r) = false)
            (rows df)) as Hfull.
  { apply list_sum_zero in Hmissing. rewrite List.Forall_map in Hmissing.
    eapply Forall_impl; [exact Hmissing|]. simpl. intros r Hzero c Hc.
    apply count_true_zero in Hzero. rewrite List.Forall_map in Hzero.
    rewrite List.Forall_forall in Hzero. apply Hzero. by apply list_elem_of_In. }
  split; [|split; [done|]].
  - unfold duplicated in Hdup.
    destruct (forallb _ _); [|done]. injection Hdup as <-.
    eapply duplicated_from_distinct. by apply count_true_zero.
  - apply get_col_Some in Hrating as [Hin ->].
    apply mapM_Some in Hbad. apply count_true_zero in Hr.
    apply List.Forall_forall. intros r Hr'.
    rewrite List.Forall_forall in Hfull. specialize (Hfull r Hr' "rating" Hin).
    apply rating_in_range; [|done].
    apply Forall2_fmap_l in Hbad.
    assert (exists b, In b bad /\ rating_out_of_range (cell_at "rating" r) = Some b)
      as (b & Hb & ->).
    { apply list_elem_of_In in Hr'.
      apply list_elem_of_lookup in Hr' as [i Hi].
      destruct (Forall2_lookup_l _ _ _ _ _ Hbad Hi) as (b & Hb & Hrb).
      exists b. split; [|done]. apply list_elem_of_In.
      by eapply list_elem_of_lookup_2. }
    f_equal. rewrite List.Forall_forall in Hr. by apply Hr.
Qed.


End CleanReviewsFacts.



(** * Further properties of the scripts *)

(** ** Python's [max] keeps the first maximum *)

Section FirstMaximum.

Lemma max_by_key_ge {A} (key : A -> Q) (best : A) (l : list A) :
  (key best <= key (Py.max_by key best l))%Q.
Proof.
  revert best. induction l as [|y l IH]; intros best; simpl.
  - apply Qle_refl.
  - destruct (Qlt_le_dec (key best) (key y)) as [Hlt|Hle]; [|apply IH].
    eapply Qle_trans; [apply Qlt_le_weak, Hlt|apply IH].
Qed.

Lemma max_by_first {A} (key : A -> Q) (best : A) (l : list A) :
  exists pre post,
    best :: l = pre ++ Py.max_by key best l :: post
    /\ Forall (fun x => (key x < key (Py.max_by key best l))%Q) pre
    /\ Forall (fun x => (key x <= key (Py.max_by key best l))%Q) post.
Proof.
  revert best. induction l as [|y l IH]; intros best; simpl.
  - exists [], []. by repeat split.
  - destruct (Qlt_le_dec (key best) (key y)) as [Hlt|Hle].
    + destruct (IH y) as (pre & post & Heq & Hpre & Hpost).
      exists (best :: pre), post. split; [by rewrite Heq|]. split; [|done].
      constructor; [|done].
      eapply Qlt_le_trans; [exact Hlt|apply max_by_key_ge].
    + destruct (IH best) as (pre & post & Heq & Hpre & Hpost).
      remember (Py.max_by key best l) as m eqn:Hm. clear Hm IH.
      destruct pre as [|b pre]; simpl in Heq; injection Heq as ? ?; subst.
      * exists [], (y :: post). split; [done|]. split; [constructor|].
        by constructor.
      * exists (b :: y :: pre), post. split; [done|]. split; [|done].
        inversion Hpre as [|? ? Hbest Hrest]; subst.
        constructor; [done|]. constructor; [|done].
        eapply Qle_lt_trans; [exact Hle|exact Hbest].
Qed.

(** X1.  The dominant topic is the first of the most probable topics of
    the distribution: every pair listed before it has a strictly smaller
    probability, every pair listed after it a smaller or equal one. *)
Theorem dominant_topic_is_first_maximum (x : Z * Q) (r : list (Z * Q)) :
  exists pre p post,
    x :: r = pre ++ (TopicModeling.dominant_topic (x :: r), p) :: post
    /\ Forall (fun tp => (snd tp < p)%Q) pre
    /\ Forall (fun tp => (snd tp <= p)%Q) post.
Proof.
  destruct (max_by_first snd x r) as (pre & post & Heq & Hpre & Hpost).
  exists pre, (snd (Py.max_by snd x r)), post. simpl.
  rewrite <- surjective_pairing. done.
Qed.

End FirstMaximum.

(** ** The URL and e-mail substitutions leave no match behind *)

Section DeleteRuns.
Import Py Regex.

Lemma delete_runs_skipping_blank starts r :
  begins_blank (delete_runs starts true r) = true.
Proof.
  induction r as [|c r IH]; simpl; [done|].
  destruct (isspace c) eqn:E; [by simpl|done].
Qed.

Lemma blank_starts_nothing p s :
  all_chars (fun c => negb (isspace c)) p = true ->
  begins_blank s = true -> starts_with_then_nonspace p s = false.
Proof.
  intros Hp Hs. destruct p as [|a p], s as [|c s]; simpl in *; try done.
  - by rewrite Hs.
  - apply andb_true_iff in Hp as [Ha _].
    destruct (Ascii.eqb_spec a c) as [->|_]; [|done].
    by rewrite Hs in Ha.
Qed.

Lemma starts_with_then_nonspace_cons a p c r :
  starts_with_then_nonspace (String a p) (String c r)
  = Ascii.eqb a c && starts_with_then_nonspace p r.
Proof. reflexivity. Qed.

Lemma delete_runs_searching starts c r :
  delete_runs starts false (String c r)
  = if starts (String c r) then delete_runs starts true r
    else String c (delete_runs starts false r).
Proof. reflexivity. Qed.

(** A literal found at the head of the result was at the head of the
    text. *)
Lemma delete_runs_head starts p r :
  all_chars (fun c => negb (isspace c)) p = true ->
  starts_with_then_nonspace p (delete_runs starts false r) = true ->
  starts_with_then_nonspace p r = true.
Proof.
  revert r. induction p as [|a p IH]; intros r Hp H.
  - destruct r as [|c r]; [done|]. rewrite delete_runs_searching in H.
    destruct (starts (String c r)); [|done].
    by rewrite (blank_starts_nothing "" _ eq_refl (delete_runs_skipping_blank _ _)) in H.
  - destruct r as [|c r]; [done|]. rewrite delete_runs_searching in H.
    destruct (starts (String c r)).
    + by rewrite (blank_starts_nothing _ _ Hp (delete_runs_skipping_blank _ _)) in H.
    + simpl in Hp. apply andb_true_iff in Hp as [_ Hp].
      simpl in *. apply andb_true_iff in H as [-> H]. simpl. by apply IH.
Qed.

Section Generic.

Variable starts : string -> bool.
Hypothesis starts_empty : starts EmptyString = false.
Hypothesis starts_blank : forall c r, isspace c = true -> starts (String c r) = false.
Hypothesis starts_kept : forall c r,
  starts (String c (delete_runs starts false r)) = true -> starts (String c r) = true.

Lemma delete_runs_never_starts skipping s :
  never_starts starts (delete_runs starts skipping s) = true.
Proof using starts_empty starts_blank starts_kept.
  revert skipping. induction s as [|c s IH]; intros skipping; simpl.
  - by rewrite starts_empty.
  - destruct skipping.
    + destruct (isspace c) eqn:E; [|apply IH].
      simpl. by rewrite starts_blank, IH.
    + destruct (starts (String c s)) eqn:E; [apply IH|].
      simpl. rewrite IH, andb_true_r. apply negb_true_iff.
      destruct (starts (String c (delete_runs starts false s))) eqn:E'; [|done].
      apply starts_kept in E'. congruence.
Qed.

Lemma never_starts_fixed s :
  never_starts starts s = true -> delete_runs starts false s = s.
Proof.
  induction s as [|c s IH]; simpl; [done|].
  intros [H1 H2]%andb_true_iff. apply negb_true_iff in H1.
  rewrite H1. by rewrite IH.
Qed.

End Generic.

Lemma url_starts_kept c r :
  url_starts (String c (delete_runs url_starts false r)) = true ->
  url_starts (String c r) = true.
Proof.
  unfold url_starts. intros [H|H]%orb_true_iff; apply orb_true_iff; [left|right];
    simpl in *; apply andb_true_iff in H as [-> H]; simpl.
  - by apply (delete_runs_head url_starts "ttp").
  - by apply (delete_runs_head url_starts "ww").
Qed.

Lemma at_then_nonspace_blank s :
  begins_blank s = true -> at_then_nonspace s = false.
Proof. destruct s as [|c s]; simpl; [done|]. by intros ->. Qed.

Lemma at_then_nonspace_kept r :
  at_then_nonspace (delete_runs email_starts false r) = true ->
  at_then_nonspace r = true.
Proof.
  induction r as [|c r IH]; [done|]. intros H.
  rewrite delete_runs_searching in H.
  destruct (email_starts (String c r)) eqn:E.
  - by rewrite (at_then_nonspace_blank _ (delete_runs_skipping_blank _ _)) in H.
  - simpl in *. destruct (isspace c); [done|].
    apply orb_true_iff in H as [H|H]; apply orb_true_iff; [left|right; by apply IH].
    apply andb_true_iff in H as [-> H]. simpl.
    by apply (delete_runs_head email_starts "").
Qed.

Lemma email_starts_kept c r :
  email_starts (String c (delete_runs email_starts false r)) = true ->
  email_starts (String c r) = true.
Proof.
  simpl. intros [-> H]%andb_true_iff. simpl. by apply at_then_nonspace_kept.
Qed.

(** X2.  After the URL substitution no position of the text starts a match
    of [http\S+|www\S+], and after the e-mail substitution none starts a
    match of [\S+@\S+]: deleting a match never brings a new one together,
    and each substitution applied twice changes nothing more. *)
Theorem substitutions_leave_no_match (s : string) :
  never_starts url_starts (sub_urls s) = true
  /\ sub_urls (sub_urls s) = sub_urls s
  /\ never_starts email_starts (sub_emails s) = true
  /\ sub_emails (sub_emails s) = sub_emails s.
Proof.
  assert (never_starts url_starts (sub_urls s) = true) as Hu.
  { apply delete_runs_never_starts; [done| |apply url_starts_kept].
    intros c r Hc. unfold url_starts.
    rewrite !starts_with_then_nonspace_cons.
    destruct (Ascii.eqb_spec "h" c) as [<-|_]; [by vm_compute in Hc|].
    destruct (Ascii.eqb_spec "w" c) as [<-|_]; [by vm_compute in Hc|done]. }
  assert (never_starts email_starts (sub_emails s) = true) as He.
  { apply delete_runs_never_starts; [done| |apply email_starts_kept].
    intros c r Hc. simpl. by rewrite Hc. }
  split; [done|]. split; [by apply never_starts_fixed|].
  split; [done|by apply never_starts_fixed].
Qed.

End DeleteRuns.

(** ** When the preprocessing raises *)

Section PreprocessErrors.
Import Pandas TopicModeling.

Context (nltk_english : gset string) (word_tokenize : string -> list string)
  (lemmatize : string -> string) (py_str : cell -> string).

Local Abbreviation clean_text :=
  (TopicModeling.clean_text nltk_english word_tokenize lemmatize py_str).
Local Abbreviation preprocess_text :=
  (TopicModeling.preprocess_text nltk_english word_tokenize lemmatize py_str).

(** X3.  [preprocess_text] raises exactly when the frame has no column
    [review]; whatever the cells of that column hold (text, numbers, NaN),
    it returns a frame with no more rows than the input and with the column
    [tokens] added to the columns of the input. *)
Theorem preprocess_text_raises_only_without_review (df : frame) :
  (preprocess_text df = None <-> "review" ∉ columns df)
  /\ (forall df', preprocess_text df = Some df' ->
        nrows df' <= nrows df
        /\ columns df'
           = if has_col "tokens" df then columns df else columns df ++ ["tokens"]).
Proof.
  unfold TopicModeling.preprocess_text.
  destruct (get_col "review" df) as [review|] eqn:Hreview; simpl.
  - pose proof (get_col_length _ _ _ Hreview) as Hlen.
    destruct (set_col_is_Some "tokens"
                (List.map (fun c => Toks (clean_text c)) review) df) as [df1 Hset];
      [by rewrite length_map|].
    rewrite Hset. simpl. rewrite (get_col_set_col_same _ _ _ _ Hset). simpl.
    rewrite mapM_cell_len_tokens. simpl. split.
    + split; [done|]. intros Hno. apply get_col_Some in Hreview as [Hin _]. done.
    + intros df' [= <-]. split.
      * unfold nrows, filter_rows. simpl.
        etrans; [apply mask_list_length_le|].
        change (length (rows df1)) with (nrows df1).
        by rewrite (set_col_nrows _ _ _ _ Hset).
      * simpl. by destruct (set_col_Some _ _ _ _ Hset) as (_ & _ & ->).
  - split; [|done]. split; [|done]. intros _ Hin.
    unfold get_col in Hreview. apply has_col_true in Hin. by rewrite Hin in Hreview.
Qed.

End PreprocessErrors.

(** ** The cleaned review text *)

Section CleanedText.
Import Pandas CleanReviews Regex.

Context (py_str : cell -> string).

Local Abbreviation clean_review_text := (CleanReviews.clean_review_text py_str).

Lemma squeeze_spaces_chars in_run s :
  Py.all_chars (fun c => Ascii.eqb c " " || negb (Py.isspace c))
    (Py.squeeze_spaces in_run s) = true.
Proof.
  revert in_run. induction s as [|c s IH]; intros in_run; simpl; [done|].
  destruct (Py.isspace c) eqn:E.
  - destruct in_run; [apply IH|]. simpl. apply IH.
  - simpl. rewrite E. simpl. rewrite orb_true_r. apply IH.
Qed.

Lemma printable_not_newline c :
  Py.is_printable c = true ->
  Ascii.eqb c " " || negb (Py.isspace c) = true ->
  printable_ascii c = true.
Proof.
  unfold Py.is_printable, printable_ascii. intros Hp Hs.
  apply orb_true_iff in Hp as [Hp|Hp]; [done|].
  apply Nat.eqb_eq in Hp.
  apply orb_true_iff in Hs as [Hs|Hs].
  - apply Ascii.eqb_eq in Hs. subst c. discriminate Hp.
  - unfold Py.isspace in Hs. rewrite Hp in Hs. discriminate Hs.
Qed.

Lemma filter_chars_all (p q : ascii -> bool) (good : ascii -> bool) s :
  (forall c, p c = true -> q c = true -> good c = true) ->
  Py.all_chars q s = true ->
  Py.all_chars good (Py.filter_chars p s) = true.
Proof.
  intros Hgood. induction s as [|c s IH]; simpl; [done|].
  intros [Hq Hs]%andb_true_iff. destruct (p c) eqn:Hp; [|by apply IH].
  simpl. rewrite (Hgood c Hp Hq). by apply IH.
Qed.

(** X4.  Whatever the raw review holds, the cleaned review text is made of
    printable ASCII characters only (U+0020..U+007E): it has no line break,
    no tab and no character outside ASCII. *)
Theorem clean_review_text_printable (text : cell) :
  Py.all_chars printable_ascii (clean_review_text text) = true.
Proof.
  unfold CleanReviews.clean_review_text. destruct (isnull text); [done|].
  unfold Py.sub_nonprintable.
  eapply filter_chars_all; [apply printable_not_newline|].
  apply squeeze_spaces_chars.
Qed.

End CleanedText.

(** ** Removing duplicates *)

Section Duplicates.
Import Pandas CleanReviews.

Lemma tokens_eqb_refl l : tokens_eqb l l = true.
Proof. induction l as [|x l IH]; simpl; [done|]. by rewrite String.eqb_refl. Qed.

Lemma cell_eqb_refl c : cell_eqb c c = true.
Proof.
  destruct c; simpl; try done.
  - apply String.eqb_refl.
  - apply Qeq_bool_refl.
  - apply Qeq_bool_refl.
  - apply tokens_eqb_refl.
Qed.

Lemma key_eqb_refl k : key_eqb k k = true.
Proof. induction k as [|c k IH]; simpl; [done|]. by rewrite cell_eqb_refl. Qed.

Lemma mask_list_sublist {A} mask (l : list A) : mask_list mask l `sublist_of` l.
Proof.
  revert l. induction mask as [|b mask IH]; intros [|x l]; simpl;
    try apply sublist_nil_l.
  destruct b; [by apply sublist_skip|by apply sublist_cons].
Qed.

(** The rows [drop_duplicates] keeps, given the keys seen before them. *)
Lemma kept_rows_distinct subset seen rs :
  let kept := mask_list (List.map negb (duplicated_from subset seen rs)) rs in
  Forall (fun r => forall k, In k seen -> key_eqb (row_key subset r) k = false) kept
  /\ ForallOrdPairs
       (fun r1 r2 => key_eqb (row_key subset r2) (row_key subset r1) = false) kept.
Proof.
  revert seen. induction rs as [|r rs IH]; intros seen; simpl.
  - split; constructor.
  - destruct (existsb _ seen) eqn:E; simpl.
    + apply IH.
    + destruct (IH (row_key subset r :: seen)) as [Hseen Hpairs]. split.
      * constructor.
        -- intros k Hk. destruct (key_eqb (row_key subset r) k) eqn:Ek; [|done].
           assert (existsb (key_eqb (row_key subset r)) seen = true) as Habs
             by (apply existsb_exists; eauto).
           congruence.
        -- eapply Forall_impl; [exact Hseen|]. simpl.
           intros r' Hr' k Hk. apply Hr'. by right.
      * constructor; [|done].
        eapply Forall_impl; [exact Hseen|]. simpl.
        intros r' Hr'. apply Hr'. by left.
Qed.

Lemma kept_rows_cover subset seen rs :
  let kept := mask_list (List.map negb (duplicated_from subset seen rs)) rs in
  Forall (fun r =>
            existsb (key_eqb (row_key subset r)) seen = true
            \/ Exists (fun r' => key_eqb (row_key subset r) (row_key subset r') = true)
                 kept) rs.
Proof.
  revert seen. induction rs as [|r rs IH]; intros seen; simpl; [constructor|].
  destruct (existsb _ seen) eqn:E; simpl.
  - constructor; [by left|apply IH].
  - constructor.
    + right. apply Exists_cons_hd. apply key_eqb_refl.
    + eapply Forall_impl; [apply (IH (row_key subset r :: seen))|]. simpl.
      intros r' [H|H].
      * apply orb_true_iff in H as [H|H]; [|by left].
        right. by apply Exists_cons_hd.
      * right. by apply Exists_cons_tl.
Qed.

(** X5.  [remove_duplicates] keeps rows of its input, in their order; no
    two rows it keeps have the same review text and bank name; and every
    row of the input has its review text and bank name on a row that is
    kept. *)
Theorem remove_duplicates_keeps_one_per_key (df df' : frame) :
  remove_duplicates df = Some df' ->
  columns df' = columns df
  /\ rows df' `sublist_of` rows df
  /\ ForallOrdPairs
       (fun r1 r2 => key_eqb (row_key ["review_text"; "bank_name"] r2)
                       (row_key ["review_text"; "bank_name"] r1) = false)
       (rows df')
  /\ Forall (fun r =>
               Exists (fun r' => key_eqb (row_key ["review_text"; "bank_name"] r)
                                   (row_key ["review_text"; "bank_name"] r') = true)
                 (rows df'))
       (rows df).
Proof.
  unfold remove_duplicates, drop_duplicates, duplicated. intros H.
  destruct (forallb _ _); [|done]. simpl in H. injection H as <-.
  split; [done|]. split; [exact (mask_list_sublist _ _)|].
  split; [exact (proj2 (kept_rows_distinct _ [] _))|].
  eapply Forall_impl;
    [exact (kept_rows_cover ["review_text"; "bank_name"] [] (rows df))|].
  intros r [H|H]; [discriminate H|exact H].
Qed.

End Duplicates.

Lemma remove_duplicates_keeps_one_per_key_witness :
  exists df',
    CleanReviews.remove_duplicates Samples.bank_reviews_raw_sound = Some df'
    /\ Pandas.columns df' = Pandas.columns Samples.bank_reviews_raw_sound
    /\ Pandas.index df' = [0; 1; 3].
Proof.
  assert (exists df',
            CleanReviews.remove_duplicates Samples.bank_reviews_raw_sound = Some df')
    as (df' & H) by (eexists; vm_compute; reflexivity).
  exists df'. destruct (remove_duplicates_keeps_one_per_key _ _ H) as (Hc & _).
  split; [exact H|]. split; [exact Hc|].
  vm_compute in H. injection H as <-. reflexivity.
Defined.

(** ** Missing values *)

Section MissingValues.
Import Pandas CleanReviews.

Lemma insert_sorted_length q l : length (insert_sorted q l) = S (length l).
Proof.
  induction l as [|x l IH]; simpl; [done|].
  destruct (Qle_bool q x); simpl; [done|by rewrite IH].
Qed.

Lemma sort_numbers_length l : length (sort_numbers l) = length l.
Proof.
  induction l as [|x l IH]; simpl; [done|].
  by rewrite insert_sorted_length, IH.
Qed.

Lemma median_None l : median l = None -> l = [].
Proof.
  unfold median. pose proof (sort_numbers_length l) as Hlen.
  destruct (length (sort_numbers l)) as [|n] eqn:E.
  - intros _. by destruct l.
  - by destruct (Nat.even (S n)).
Qed.

Lemma fillna_cases value (l : list cell) :
  (value = None -> Forall (fun c => isnull c = true) l) ->
  Forall (fun c => isnull c = false) (List.map (fillna value) l)
  \/ Forall (fun c => isnull c = true) (List.map (fillna value) l).
Proof.
  destruct value as [m|]; intros H.
  - left. apply List.Forall_map, List.Forall_forall. intros c _. by destruct c.
  - right. apply List.Forall_map. eapply Forall_impl; [by apply H|].
    intros c Hc. by destruct c.
Qed.

(** X6.  After [handle_missing_values] no row lacks its review text or its
    date, and the ratings are either all present or all missing: a missing
    rating is filled with the median of the ratings present and stays
    missing only when no rating is present at all. *)
Theorem handle_missing_values_fills (df df' : frame) :
  handle_missing_values df = Some df' ->
  exists review_text date rating,
    get_col "review_text" df' = Some review_text
    /\ Forall (fun c => isnull c = false) review_text
    /\ get_col "date" df' = Some date
    /\ Forall (fun c => isnull c = false) date
    /\ get_col "rating" df' = Some rating
    /\ (Forall (fun c => isnull c = false) rating
        \/ Forall (fun c => isnull c = true) rating)
    /\ index df' `sublist_of` index df.
Proof.
  unfold handle_missing_values. intros H.
  apply bind_Some in H as (df1 & H1 & H).
  apply bind_Some in H as (rating & Hrating & H).
  apply bind_Some in H as (df2 & H2 & H).
  pose proof H1 as (col0 & Hcol0 & Edf1)%dropna_Some.
  assert (exists review_text,
            get_col "review_text" df1 = Some review_text
            /\ Forall (fun c => isnull c = false) review_text) as (rt & Hrt & Hrt_ok).
  { rewrite Edf1, filter_rows_get_col, Hcol0. simpl. eexists. split; [done|].
    apply mask_list_Forall. intros c. by destruct (isnull c). }
  assert (exists rating2,
            get_col "rating" df2 = Some rating2
            /\ get_col "review_text" df2 = Some rt
            /\ (Forall (fun c => isnull c = false) rating2
                \/ Forall (fun c => isnull c = true) rating2))
    as (rating2 & Hrating2 & Hrt2 & Hcases).
  { destruct (existsb isnull rating) eqn:Hnull.
    - apply bind_Some in H2 as (numbers & Hnum & Hset).
      eexists. split; [apply (get_col_set_col_same _ _ _ _ Hset)|].
      split; [by rewrite (get_col_set_col_ne _ _ _ _ _ Hset) by reflexivity|].
      apply fillna_cases. intros Hmed. apply median_None in Hmed. subst numbers.
      apply length_mapM in Hnum. apply List.Forall_forall. intros c Hc.
      destruct (isnull c) eqn:Ec; [done|].
      assert (In c (List.filter (fun c => negb (isnull c)) rating)) as Hin
        by (apply filter_In; by rewrite Ec).
      destruct (List.filter _ rating); [done|discriminate Hnum].
    - injection H2 as <-. exists rating. split; [done|]. split; [done|]. left.
      apply List.Forall_forall. intros c Hc. destruct (isnull c) eqn:Ec; [|done].
      assert (existsb isnull rating = true) as Habs
        by (apply existsb_exists; eauto).
      congruence. }
  pose proof H as (date0 & Hdate0 & Edf')%dropna_Some.
  exists (mask_list (List.map (fun c => negb (isnull c)) date0) rt),
         (mask_list (List.map (fun c => negb (isnull c)) date0) date0),
         (mask_list (List.map (fun c => negb (isnull c)) date0) rating2).
  rewrite Edf', !filter_rows_get_col, Hrt2, Hdate0, Hrating2. simpl.
  split; [done|]. split; [by apply mask_list_Forall_sub|].
  split; [done|]. split; [apply mask_list_Forall; intros c; by destruct (isnull c)|].
  split; [done|]. split.
  { destruct Hcases; [left|right]; by apply mask_list_Forall_sub. }
  rewrite filter_rows_index.
  assert (index df2 = index df1) as ->.
  { destruct (existsb isnull rating).
    - apply bind_Some in H2 as (numbers & _ & Hset). by eapply set_col_index.
    - by injection H2 as <-. }
  etrans; [apply mask_list_sublist|].
  rewrite Edf1, filter_rows_index. apply mask_list_sublist.
Qed.

End MissingValues.

Lemma handle_missing_values_fills_witness :
  exists df',
    CleanReviews.handle_missing_values Samples.bank_reviews_raw_sound = Some df'
    /\ Pandas.get_col "rating" df'
       = Some [Pandas.Int 5; Pandas.Num 2; Pandas.Int 2; Pandas.Int 1].
Proof.
  assert (exists df',
            CleanReviews.handle_missing_values Samples.bank_reviews_raw_sound = Some df')
    as (df' & H) by (eexists; vm_compute; reflexivity).
  exists df'. split; [exact H|].
  destruct (handle_missing_values_fills _ _ H)
    as (review_text & date & rating & _ & _ & _ & _ & Hr & _).
  rewrite Hr. vm_compute in H. injection H as <-.
  vm_compute in Hr. exact (eq_sym Hr).
Defined.

(** ** Banks first, reviews second *)

Section BankMapping.
Import Pandas InsertIntoPostgres.

Context (db date : Type)
  (insert_bank : db -> cell -> cell -> option (db * Z))
  (insert_review : db -> review_tuple date -> option db)
  (commit_ok : db -> bool)
  (to_date : cell -> option date) (today : date)
  (int_of_str : string -> option Z).

Local Abbreviation insert_each_bank := (InsertIntoPostgres.insert_each_bank db insert_bank).
Local Abbreviation insert_banks := (InsertIntoPostgres.insert_banks db insert_bank commit_ok).
Local Abbreviation insert_reviews :=
  (InsertIntoPostgres.insert_reviews db date insert_review commit_ok to_date today
     int_of_str).
Local Abbreviation prepare_rows :=
  (InsertIntoPostgres.prepare_rows date to_date today int_of_str).

Lemma tokens_eqb_eq a b : tokens_eqb a b = true -> a = b.
Proof.
  revert b. induction a as [|x a IH]; intros [|y b]; simpl; try done.
  intros [->%String.eqb_eq H]%andb_true_iff. f_equal. by apply IH.
Qed.

Lemma cell_eqb_trans a b c :
  cell_eqb a b = true -> cell_eqb b c = true -> cell_eqb a c = true.
Proof.
  intros H1 H2.
  destruct a, b; simpl in H1; try discriminate H1;
    destruct c; simpl in H2 |- *; try discriminate H2; try done;
    try (apply String.eqb_eq in H1, H2; subst; apply String.eqb_refl);
    try (apply tokens_eqb_eq in H1, H2; subst; apply tokens_eqb_refl);
    apply Qeq_bool_iff in H1, H2; apply Qeq_bool_iff;
    eapply Qeq_trans; eassumption.
Qed.

Lemma dict_get_equiv a b d :
  cell_eqb a b = true -> is_Some (dict_get b d) -> is_Some (dict_get a d).
Proof.
  intros Hab. induction d as [|[k v] d IH]; simpl; [done|].
  destruct (cell_eqb b k) eqn:Hbk.
  - rewrite (cell_eqb_trans _ _ _ Hab Hbk). eauto.
  - destruct (cell_eqb a k); eauto.
Qed.

Lemma dict_get_set_same key v d : is_Some (dict_get key (dict_set key v d)).
Proof.
  induction d as [|[k w] d IH]; simpl.
  - rewrite cell_eqb_refl. eauto.
  - destruct (cell_eqb key k) eqn:E; simpl; rewrite E; eauto.
Qed.

Lemma dict_get_set_keeps a key v d :
  is_Some (dict_get a d) -> is_Some (dict_get a (dict_set key v d)).
Proof.
  induction d as [|[k w] d IH]; simpl; [by intros [? ?]|].
  destruct (cell_eqb key k); simpl; destruct (cell_eqb a k); eauto.
Qed.

Lemma insert_each_bank_mapping unique_banks c c' m0 m :
  insert_each_bank unique_banks c m0 = (c', Some m) ->
  (forall a, is_Some (dict_get a m0) -> is_Some (dict_get a m))
  /\ Forall (fun b => is_Some (dict_get b m)) unique_banks.
Proof.
  revert c m0. induction unique_banks as [|b rest IH]; intros c m0 H; simpl in H.
  - injection H as <- <-. split; [done|constructor].
  - destruct (insert_bank (working db c) b b) as [[w id]|]; [|done].
    apply IH in H as [Hkeep Hrest]. split.
    + intros a Ha. by apply Hkeep, dict_get_set_keeps.
    + constructor; [|done]. apply Hkeep, dict_get_set_same.
Qed.

Lemma unique_from_covers seen l :
  Forall (fun c => existsb (cell_eqb c) seen = true
                   \/ Exists (fun u => cell_eqb c u = true) (unique_from seen l)) l.
Proof.
  revert seen. induction l as [|c l IH]; intros seen; simpl; [constructor|].
  destruct (existsb (cell_eqb c) seen) eqn:E.
  - constructor; [by left|apply IH].
  - constructor.
    + right. apply Exists_cons_hd, cell_eqb_refl.
    + eapply Forall_impl; [apply (IH (c :: seen))|]. simpl.
      intros c' [H|H].
      * apply orb_true_iff in H as [H|H]; [|by left].
        right. by apply Exists_cons_hd.
      * right. by apply Exists_cons_tl.
Qed.

(** X7.  The mapping [insert_banks] returns for a frame has a key for the
    bank of every row of that frame; so [insert_reviews], called with it on
    the same frame (as [main] does), skips no row: when it returns, the
    number it returns is the number of rows of the frame. *)
Theorem insert_banks_mapping_covers_frame (c c' : connection db) df bank_mapping :
  insert_banks c df = (c', Returns bank_mapping) ->
  Forall (fun r => bank_known bank_mapping r = true) (rows df)
  /\ (forall (c2 c3 : connection db) n,
        insert_reviews c2 df bank_mapping = (c3, Returns n) -> n = nrows df).
Proof.
  unfold InsertIntoPostgres.insert_banks. intros H.
  destruct (get_col "bank" df) as [bank|] eqn:Hbank; [|done].
  destruct (insert_each_bank (unique bank) c []) as [c1 [m|]] eqn:Heach; [|done].
  destruct (commit db commit_ok c1); [|done]. injection H as _ <-.
  apply insert_each_bank_mapping in Heach as [_ Hall].
  apply get_col_Some in Hbank as [_ ->].
  assert (Forall (fun r => bank_known m r = true) (rows df)) as Hknown.
  { apply List.Forall_forall. intros r Hr. unfold bank_known.
    pose proof (unique_from_covers [] (List.map (cell_at "bank") (rows df))) as Hcov.
    rewrite List.Forall_forall in Hcov.
    destruct (Hcov (cell_at "bank" r)) as [Habs|Hex];
      [by apply in_map|discriminate Habs|].
    apply List.Exists_exists in Hex as (u & Hu & Heq).
    rewrite List.Forall_forall in Hall.
    destruct (dict_get_equiv _ _ m Heq (Hall u Hu)) as [id ->]. done. }
  split; [done|].
  intros c2 c3 n. unfold InsertIntoPostgres.insert_reviews.
  destruct (prepare_rows df m (rows df)) as [data|] eqn:Hdata; [|done].
  destruct (execute_batch _ _ _ _ _) as [c4 [|]]; [|done].
  destruct (commit db commit_ok c4); [|done]. intros [= _ <-].
  apply prepare_rows_Some in Hdata. apply Forall2_length in Hdata.
  rewrite <- Hdata. unfold nrows. f_equal.
  apply forallb_filter_id. by apply forallb_forall, List.Forall_forall.
Qed.

End BankMapping.
